(** * prospyr.connection: named connections and URL resolution

    A shallow embedding of [prospyr/connection.py] and of the parts of its
    dependencies that the module calls: [urllib.parse] and [posixpath] of
    CPython 3.11, the [URLObject]/[URLPath] wrappers of the urlobject
    package, the regular expression [/v\d] and the header dictionary of a
    requests session.

    Text is modelled as byte strings ([string]), that is, as the UTF-8
    encoding of a Python [str]; character classes are the ASCII ones.
    Exceptions are values of [exn] carried by [result]; the module-level
    dictionary [_connections] is threaded explicitly as part of [State]. *)

From Stdlib Require Import String Ascii List NArith Bool Lia.
From stdpp Require Import base option gmap strings.

Local Open Scope char_scope.

(** ** Exceptions *)

Inductive exn : Type :=
| ValueError (msg : string)
| MisconfiguredError (msg : string)
| AttributeError (msg : string).

Inductive result (A : Type) : Type :=
| Ok (a : A)
| Raise (e : exn).

Arguments Ok {A} a.
Arguments Raise {A} e.

(** An exception raised by [r] propagates; otherwise [k] runs on its value. *)
Definition bind {A B : Type} (k : A -> result B) (r : result A) : result B :=
  match r with
  | Ok a => k a
  | Raise e => Raise e
  end.

#[global] Instance result_ret : MRet result := fun A a => Ok a.
#[global] Instance result_bind : MBind result := fun A B k r => bind k r.

(** ** The string methods used by the libraries *)

Module text.

(** [c in s] for a one-character [c]. *)
Fixpoint contains (c : ascii) (s : string) : bool :=
  match s with
  | EmptyString => false
  | String a s' => if Ascii.eqb a c then true else contains c s'
  end.

(** [all(p(c) for c in s)]. *)
Fixpoint all (p : ascii -> bool) (s : string) : bool :=
  match s with
  | EmptyString => true
  | String a s' => p a && all p s'
  end.

(** Cut [s] in front of the first character on which [stop] holds. *)
Fixpoint break (stop : ascii -> bool) (s : string) : string * string :=
  match s with
  | EmptyString => (EmptyString, EmptyString)
  | String a s' =>
      if stop a then (EmptyString, s)
      else let (h, t) := break stop s' in (String a h, t)
  end.

(** [s.partition(c)]; the middle component says whether [c] was found. *)
Definition partition (c : ascii) (s : string) : string * bool * string :=
  match break (Ascii.eqb c) s with
  | (h, String _ t) => (h, true, t)
  | (h, EmptyString) => (h, false, EmptyString)
  end.

(** [s.rpartition(c)]: cut at the last [c]; without one, everything is in
    the third component. *)
Fixpoint rpartition (c : ascii) (s : string) : string * bool * string :=
  match s with
  | EmptyString => (EmptyString, false, EmptyString)
  | String a s' =>
      match rpartition c s' with
      | (h, true, t) => (String a h, true, t)
      | (_, false, t) =>
          if Ascii.eqb a c then (EmptyString, true, s')
          else (EmptyString, false, String a t)
      end
  end.

(** [s.startswith(p)]. *)
Fixpoint startswith (p s : string) : bool :=
  match p, s with
  | EmptyString, _ => true
  | String a p', String b s' => Ascii.eqb a b && startswith p' s'
  | String _ _, EmptyString => false
  end.

(** [s.endswith(c)] for a one-character [c]. *)
Fixpoint endswith (c : ascii) (s : string) : bool :=
  match s with
  | EmptyString => false
  | String a EmptyString => Ascii.eqb a c
  | String _ s' => endswith c s'
  end.

(** [s.lstrip(chars)], with the set [chars] given as a predicate. *)
Fixpoint lstrip (strip : ascii -> bool) (s : string) : string :=
  match s with
  | EmptyString => EmptyString
  | String a s' => if strip a then lstrip strip s' else s
  end.

(** Remove every character on which [drop] holds
    ([s.replace(b, "")] for each such [b]). *)
Fixpoint remove (drop : ascii -> bool) (s : string) : string :=
  match s with
  | EmptyString => EmptyString
  | String a s' =>
      if drop a then remove drop s' else String a (remove drop s')
  end.

Definition is_upper (c : ascii) : bool :=
  contains c "ABCDEFGHIJKLMNOPQRSTUVWXYZ".

Definition lower_char (c : ascii) : ascii :=
  if is_upper c then ascii_of_N (N_of_ascii c + 32) else c.

(** [s.lower()]. *)
Fixpoint lower (s : string) : string :=
  match s with
  | EmptyString => EmptyString
  | String a s' => String (lower_char a) (lower s')
  end.

(** [s[n:]]. *)
Fixpoint drop (n : nat) (s : string) : string :=
  match n, s with
  | O, _ => s
  | S n', String _ s' => drop n' s'
  | S _, EmptyString => EmptyString
  end.

Definition is_empty (s : string) : bool :=
  match s with
  | EmptyString => true
  | String _ _ => false
  end.

Definition is_digit (c : ascii) : bool := contains c "0123456789".

End text.

(** ** [re.search('/v\d', s)] *)

Module re.

(** The pattern [/v\d] matched at the start of [s]. *)
Definition match_version (s : string) : bool :=
  match s with
  | String "/" (String "v" (String d _)) => text.is_digit d
  | _ => false
  end.

(** [re.search(pattern, s)]: a match at some position of [s]. *)
Fixpoint search (matches : string -> bool) (s : string) : bool :=
  matches s ||
  match s with
  | EmptyString => false
  | String _ s' => search matches s'
  end.

End re.

(** ** [urllib.parse] *)

Module urlparse.

Record SplitResult : Type := mkSplitResult {
  scheme : string;
  netloc : string;
  path : string;
  query : string;
  fragment : string
}.

Definition uses_netloc : list string :=
  [ EmptyString; "ftp"; "http"; "gopher"; "nntp"; "telnet";
    "imap"; "wais"; "file"; "mms"; "https"; "shttp";
    "snews"; "prospero"; "rtsp"; "rtspu"; "rsync";
    "svn"; "svn+ssh"; "sftp"; "nfs"; "git"; "git+ssh";
    "ws"; "wss" ]%string.

Definition ascii_letters : string :=
  "abcdefghijklmnopqrstuvwxyzABCDEFGHIJKLMNOPQRSTUVWXYZ".

Definition scheme_chars : string :=
  ("abcdefghijklmnopqrstuvwxyz" +:+
   "ABCDEFGHIJKLMNOPQRSTUVWXYZ" +:+
   "0123456789" +:+
   "+-.")%string.

(** [_WHATWG_C0_CONTROL_OR_SPACE]: the codes 0 to 32. *)
Definition c0_control_or_space (c : ascii) : bool :=
  (N_of_ascii c <=? 32)%N.

(** [_UNSAFE_URL_BYTES_TO_REMOVE]: tab, carriage return, line feed. *)
Definition unsafe_url_byte (c : ascii) : bool :=
  Ascii.eqb c "009" || Ascii.eqb c "013" || Ascii.eqb c "010".

Definition is_delim (c : ascii) : bool :=
  Ascii.eqb c "/" || Ascii.eqb c "?" || Ascii.eqb c "#".

(** [_splitnetloc(url, start)]: the domain part ends at the first of
    [/], [?], [#] from [start] on. *)
Definition _splitnetloc (url : string) (start : nat) : string * string :=
  text.break is_delim (text.drop start url).

(** The scheme test of [urlsplit]: a colon at a position [i > 0], a
    first character that is an ASCII letter, and scheme characters only
    in [url[:i]]. *)
Definition split_scheme (url : string) : string * string :=
  match text.partition ":" url with
  | (String a pre, true, rest) =>
      if text.contains a ascii_letters
         && text.all (fun c => text.contains c scheme_chars) (String a pre)
      then (text.lower (String a pre), rest)
      else (EmptyString, url)
  | _ => (EmptyString, url)
  end.

(** The bracket test of [urlsplit]. *)
Definition unbalanced_brackets (netloc : string) : bool :=
  (text.contains "[" netloc && negb (text.contains "]" netloc))
  || (text.contains "]" netloc && negb (text.contains "[" netloc)).

Definition split_netloc (url : string) : result (string * string) :=
  if text.startswith "//" url
  then
    let (netloc, url') := _splitnetloc url 2 in
    if unbalanced_brackets netloc
    then Raise (ValueError "Invalid IPv6 URL")
    else Ok (netloc, url')
  else Ok (EmptyString, url).

(** [url.split(c, 1)] when [c in url], and [(url, '')] otherwise. *)
Definition split_once (c : ascii) (url : string) : string * string :=
  let '(h, _, t) := text.partition c url in (h, t).

(** [urlsplit(url)] with the default scheme and fragments allowed.  The
    check of the address written between brackets and the NFKC check of
    a non-ASCII netloc are outside this model. *)
Definition urlsplit (url : string) : result SplitResult :=
  let url := text.lstrip c0_control_or_space url in
  let url := text.remove unsafe_url_byte url in
  let (scheme, url) := split_scheme url in
  '(netloc, url) ← split_netloc url;
  let (url, fragment) := split_once "#" url in
  let (url, query) := split_once "?" url in
  Ok (mkSplitResult scheme netloc url query fragment).

Definition in_list (s : string) (l : list string) : bool :=
  existsb (String.eqb s) l.

(** [urlunsplit((scheme, netloc, url, query, fragment))]. *)
Definition urlunsplit (c : SplitResult) : string :=
  let url := path c in
  let url :=
    if negb (text.is_empty (netloc c))
       || (negb (text.is_empty (scheme c))
           && in_list (scheme c) uses_netloc
           && negb (text.startswith "//" url))
    then
      let url :=
        if negb (text.is_empty url) && negb (text.startswith "/" url)
        then ("/" +:+ url)%string else url in
      ("//" +:+ netloc c +:+ url)%string
    else url in
  let url :=
    if negb (text.is_empty (scheme c))
    then (scheme c +:+ ":" +:+ url)%string else url in
  let url :=
    if negb (text.is_empty (query c))
    then (url +:+ "?" +:+ query c)%string else url in
  let url :=
    if negb (text.is_empty (fragment c))
    then (url +:+ "#" +:+ fragment c)%string else url in
  url.

(** [SplitResult._hostinfo[0]] for a result whose netloc is [netloc]. *)
Definition _hostinfo_host (netloc : string) : string :=
  let '(_, _, hostinfo) := text.rpartition "@" netloc in
  let '(_, have_open_br, bracketed) := text.partition "[" hostinfo in
  if have_open_br
  then let '(hostname, _, _) := text.partition "]" bracketed in hostname
  else let '(hostname, _, _) := text.partition ":" hostinfo in hostname.

(** [SplitResult.hostname]; [None] is Python's [None]. *)
Definition hostname (netloc : string) : option string :=
  let hostname := _hostinfo_host netloc in
  if text.is_empty hostname then None
  else
    let '(hostname, percent, zone) := text.partition "%" hostname in
    Some (text.lower hostname
          +:+ (if percent then "%" else EmptyString)
          +:+ zone)%string.

(** [_ALWAYS_SAFE]. *)
Definition always_safe : string :=
  ("ABCDEFGHIJKLMNOPQRSTUVWXYZ" +:+
   "abcdefghijklmnopqrstuvwxyz" +:+
   "0123456789" +:+
   "_.-~")%string.

Definition hex_digit (n : N) : ascii :=
  match String.get (N.to_nat n) "0123456789ABCDEF" with
  | Some c => c
  | None => "0"
  end.

(** ['%{:02X}'.format(b)]. *)
Definition percent_hex (c : ascii) : string :=
  let n := N_of_ascii c in
  String "%" (String (hex_digit (n / 16)) (String (hex_digit (n mod 16))
    EmptyString)).

(** [_Quoter(safe)[b]]. *)
Definition quoter (safe : string) (c : ascii) : string :=
  if (N_of_ascii c <? 128)%N
     && (text.contains c always_safe || text.contains c safe)
  then String c EmptyString
  else percent_hex c.

(** [quote(string, safe)]. *)
Fixpoint quote (s : string) (safe : string) : string :=
  match s with
  | EmptyString => EmptyString
  | String c s' => (quoter safe c +:+ quote s' safe)%string
  end.

Definition hex_value (c : ascii) : option N :=
  if text.is_digit c then Some (N_of_ascii c - 48)%N
  else if text.contains c "abcdef" then Some (N_of_ascii c - 87)%N
  else if text.contains c "ABCDEF" then Some (N_of_ascii c - 55)%N
  else None.

(** [unquote(string)] on the bytes of the text: every [%XX] with two
    hexadecimal digits stands for one byte, anything else for itself. *)
Fixpoint unquote (s : string) : string :=
  match s with
  | EmptyString => EmptyString
  | String c t =>
      if Ascii.eqb c "%" then
        match t with
        | String a (String b rest) =>
            match hex_value a, hex_value b with
            | Some x, Some y =>
                String (ascii_of_N (16 * x + y)) (unquote rest)
            | _, _ => String c (unquote t)
            end
        | _ => String c (unquote t)
        end
      else String c (unquote t)
  end.

End urlparse.

(** ** [posixpath.join] *)

Module posixpath.

Definition join_step (path b : string) : string :=
  if text.startswith "/" b then b
  else if text.is_empty path || text.endswith "/" path
       then (path +:+ b)%string
       else (path +:+ "/" +:+ b)%string.

(** [posixpath.join(a, *p)]. *)
Definition join (a : string) (p : list string) : string :=
  fold_left join_step p a.

End posixpath.

(** ** The urlobject package

    [URLObject] and [URLPath] are subclasses of [str]: a value of either
    class is its text, and every property parses that text again. *)

Module urlobject.

Definition URLObject (url : string) : string := url.
Definition URLPath (path : string) : string := path.

(** [URLObject.scheme]. *)
Definition scheme (self : string) : result string :=
  r ← urlparse.urlsplit self; Ok (urlparse.scheme r).

(** [URLObject.hostname], that is [Netloc(netloc).hostname]. *)
Definition hostname (self : string) : result (option string) :=
  r ← urlparse.urlsplit self; Ok (urlparse.hostname (urlparse.netloc r)).

(** [URLObject.path]. *)
Definition path (self : string) : result string :=
  r ← urlparse.urlsplit self; Ok (URLPath (urlparse.path r)).

(** [URLObject.with_path]: [urlunsplit(urlsplit(self)._replace(path=p))]. *)
Definition with_path (self p : string) : result string :=
  r ← urlparse.urlsplit self;
  Ok (URLObject (urlparse.urlunsplit
        (urlparse.mkSplitResult (urlparse.scheme r) (urlparse.netloc r) p
           (urlparse.query r) (urlparse.fragment r)))).

(** [URLPath.add_segment]: slashes of the segment are encoded. *)
Definition add_segment (self segment : string) : string :=
  URLPath (posixpath.join self [urlparse.quote segment EmptyString]).

(** [URLPath.add]: slashes of the partial path are kept. *)
Definition add (self partial : string) : string :=
  URLPath (posixpath.join self [urlparse.quote partial "/"%string]).

(** [URLObject.add_path_segment]. *)
Definition add_path_segment (self segment : string) : result string :=
  p ← path self; with_path self (add_segment p segment).

(** [URLObject.add_path]. *)
Definition add_path (self partial : string) : result string :=
  p ← path self; with_path self (add p partial).

End urlobject.

(** ** The session of the requests package

    Only the persistent headers matter here.  They are a
    [CaseInsensitiveDict]: the key in lower case maps to the key as it was
    written and the value. *)

Module requests.

Record Session : Type := mkSession {
  headers : gmap string (string * string)
}.

Definition header_set (k v : string) (m : gmap string (string * string))
  : gmap string (string * string) :=
  <[text.lower k := (k, v)]> m.

Definition header_get (k : string) (m : gmap string (string * string))
  : option string :=
  snd <$> m !! text.lower k.

(** [headers.update(items)]. *)
Definition headers_update (items : list (string * string))
  (m : gmap string (string * string)) : gmap string (string * string) :=
  fold_left (fun m kv => header_set (fst kv) (snd kv) m) items m.

Definition __version__ : string := "2.11.1".

(** [requests.utils.default_headers()]. *)
Definition default_headers : gmap string (string * string) :=
  headers_update
    [ ("User-Agent", "python-requests/" +:+ __version__);
      ("Accept-Encoding", "gzip, deflate");
      ("Accept", "*/*");
      ("Connection", "keep-alive") ]%string ∅.

(** [requests.Session()]. *)
Definition new_Session : Session := mkSession default_headers.

End requests.

(** ** prospyr/connection.py *)

Module connection.

Import urlobject.

(** A double quote, for the messages that contain one. *)
Definition dquote : string := String "034" EmptyString.

(** An instance of the class [Connection].  [oid] is the identity of the
    object: two instances are the same object when their [oid]s agree. *)
Record Connection : Type := mkConnection {
  oid : nat;
  session : requests.Session;
  email : string;
  base_url : string;
  api_url : string
}.

(** The module state: the dictionary [_connections], and the identity
    that the next allocated instance receives. *)
Record State : Type := mkState {
  _connections : gmap string Connection;
  next_oid : nat
}.

(** The state when the module has just been imported. *)
Definition initial : State := mkState ∅ 0.

Definition _default_url : string :=
  "https://api.prosperworks.com/developer_api/".

Definition scheme_message (url : string) : string :=
  ("ProsperWorks API URL `" +:+ url +:+ "` must include a "
   +:+ "scheme (http, https)")%string.

Definition hostname_message (url : string) : string :=
  ("ProsperWorks API URL `" +:+ url +:+ "` must include a "
   +:+ "hostname")%string.

Definition version_message (url : string) : string :=
  ("ProsperWorks API URL `" +:+ url +:+ "` should not "
   +:+ "include a " +:+ dquote +:+ "version" +:+ dquote
   +:+ " path segment")%string.

(** [not x] for a value that is [None] or a string. *)
Definition falsy (x : option string) : bool :=
  match x with
  | None => true
  | Some s => text.is_empty s
  end.

Definition validate_url (url : string) : result bool :=
  let uo := URLObject url in
  s ← scheme uo;
  if text.is_empty s || negb (urlparse.in_list s ["http"; "https"]%string)
  then Raise (MisconfiguredError (scheme_message url))
  else
    h ← hostname uo;
    if falsy h
    then Raise (MisconfiguredError (hostname_message url))
    else
      if re.search re.match_version url
      then Raise (MisconfiguredError (version_message url))
      else Ok true.

(** The loop over [paths] returns in its first iteration. *)
Definition url_join (base : string) (paths : list string) : result string :=
  let base := URLObject base in
  match paths with
  | path :: _ =>
      let path := URLPath path in
      add_path base path
  | [] => Ok base
  end.

Definition _get_session (email token : string) : requests.Session :=
  let session := requests.new_Session in
  let defaults :=
    [ ("X-PW-Application", "developer_api");
      ("X-PW-AccessToken", token);
      ("X-PW-UserEmail", email);
      ("Accept", "application/json");
      ("Content-Type", "application/json") ]%string in
  requests.mkSession
    (requests.headers_update defaults (requests.headers session)).

(** [Connection.__init__] on the freshly allocated instance [oid]. *)
Definition __init__ (oid : nat) (url email token version : string)
  : result Connection :=
  let session := _get_session email token in
  let base_url := URLObject url in
  api_url ← add_path_segment base_url version;
  Ok (mkConnection oid session email base_url api_url).

Definition default_version : string := "v1".

Definition build_absolute_url (self : Connection) (path : string)
  : result string :=
  url_join (api_url self) [path].

Definition duplicate_message (name : string) (existing : Connection)
  : string :=
  ("`" +:+ name +:+ "` is already connected using account "
   +:+ dquote +:+ email existing +:+ dquote)%string.

Definition connect (email token url name : string) (st : State)
  : result Connection * State :=
  match _connections st !! name with
  | Some existing =>
      (Raise (ValueError (duplicate_message name existing)), st)
  | None =>
      match validate_url url with
      | Raise e => (Raise e, st)
      | Ok _ =>
          match __init__ (next_oid st) url email token default_version with
          | Raise e => (Raise e, st)
          | Ok conn =>
              (Ok conn,
               mkState (<[name := conn]> (_connections st))
                       (S (next_oid st)))
          end
      end
  end.

Definition default_name : string := "default".

Definition no_default_message : string :=
  ("There is no default connection. "
   +:+ "First try prospyr.connect(...)")%string.

Definition no_such_message (name : string) : string :=
  ("There is no connection named " +:+ dquote +:+ name +:+ dquote +:+ ". "
   +:+ "First try prospyr.connect(..., name="
   +:+ dquote +:+ name +:+ dquote +:+ ")")%string.

Definition get (name : string) (st : State) : result Connection :=
  match _connections st !! name with
  | Some conn => Ok conn
  | None =>
      let msg :=
        if String.eqb name "default" then no_default_message
        else no_such_message name in
      Raise (MisconfiguredError msg)
  end.

Definition methods : list string :=
  [ "get"; "post"; "put"; "patch"; "delete"; "options" ]%string.

(** The value that [__getattr__] builds:
    [functools.partial(self.http_method, name)]. *)
Inductive Callable : Type :=
| partial_http_method (self : Connection) (name : string).

Definition __getattr__ (self : Connection) (name : string)
  : result Callable :=
  if urlparse.in_list name methods
  then Ok (partial_http_method self name)
  else Raise (AttributeError
                "'super' object has no attribute '__getattr__'").

Section transport.

(** The values passed as further arguments, and what the transport
    answers. *)
Context {PyVal Response : Type}.

(** What a call does: it ends with a value or an exception, or it calls
    the attribute [method] of a session and goes on with the answer. *)
Inductive Action : Type :=
| Return (r : result Response)
| SessionCall (s : requests.Session) (method : string) (url : string)
    (args : list PyVal) (kwargs : list (string * PyVal))
    (k : result Response -> Action).

(** [getattr(self.session, method)(url, *args, **kwargs)], returned as it
    comes. *)
Definition http_method (self : Connection) (method url : string)
  (args : list PyVal) (kwargs : list (string * PyVal)) : Action :=
  SessionCall (session self) method url args kwargs Return.

(** Calling a [Callable] with [(url, *args, **kwargs)]. *)
Definition call (f : Callable) (url : string)
  (args : list PyVal) (kwargs : list (string * PyVal)) : Action :=
  match f with
  | partial_http_method self name => http_method self name url args kwargs
  end.

End transport.

End connection.

Import connection.

(** * Notions used in the statements *)

(** [needle in hay] for strings. *)
Definition includes (needle hay : string) : Prop :=
  exists pre post, hay = (pre +:+ needle +:+ post)%string.

(** The characters that [urlsplit] leaves in a URL. *)
Definition plain (c : ascii) : bool := negb (urlparse.unsafe_url_byte c).

Definition netloc_char (c : ascii) : bool :=
  negb (urlparse.is_delim c) && plain c.

Definition path_char (c : ascii) : bool :=
  negb (Ascii.eqb c "?") && negb (Ascii.eqb c "#") && plain c.

Definition query_char (c : ascii) : bool :=
  negb (Ascii.eqb c "#") && plain c.

(** A scheme as [urlsplit] returns it: none, or a letter followed by scheme
    characters, none of them in upper case. *)
Definition head_is_letter (s : string) : bool :=
  match s with
  | EmptyString => false
  | String a _ => text.contains a urlparse.ascii_letters
  end.

Definition valid_scheme (s : string) : bool :=
  text.is_empty s
  || (head_is_letter s
      && text.all (fun c => text.contains c urlparse.scheme_chars) s
      && String.eqb (text.lower s) s).

(** The five components of a URL that [urlsplit] can return. *)
Definition components_ok (r : urlparse.SplitResult) : bool :=
  valid_scheme (urlparse.scheme r)
  && text.all netloc_char (urlparse.netloc r)
  && negb (urlparse.unbalanced_brackets (urlparse.netloc r))
  && text.all path_char (urlparse.path r)
  && text.all query_char (urlparse.query r)
  && text.all plain (urlparse.fragment r).

(** [r._replace(path=p)]. *)
Definition replace_path (r : urlparse.SplitResult) (p : string)
  : urlparse.SplitResult :=
  urlparse.mkSplitResult (urlparse.scheme r) (urlparse.netloc r) p
    (urlparse.query r) (urlparse.fragment r).

(** The path that [urlunsplit] writes behind a netloc: a leading slash is
    added to a path that has none and is not empty. *)
Definition rooted (p : string) : string :=
  if negb (text.is_empty p) && negb (text.startswith "/" p)
  then ("/" +:+ p)%string else p.

(** [c + s] when [s] is not empty, as [urlunsplit] writes a query or a
    fragment; [s + c] when [s] is not empty, as it writes a scheme. *)
Definition opt_after (c : ascii) (s : string) : string :=
  if text.is_empty s then EmptyString else String c s.

Definition opt_before (s : string) (c : ascii) : string :=
  if text.is_empty s then EmptyString else (s +:+ String c EmptyString)%string.

(** What decoding needs of the encoding of one character: a character
    written as itself is not a percent sign, and an escape has two
    hexadecimal digits that give the character back. *)
Definition quoter_decodes (c : ascii) : bool :=
  if (N_of_ascii c <? 128)%N
     && (text.contains c urlparse.always_safe
         || text.contains c EmptyString)
  then negb (Ascii.eqb c "%")
  else
    match urlparse.hex_value (urlparse.hex_digit (N_of_ascii c / 16)),
          urlparse.hex_value (urlparse.hex_digit (N_of_ascii c mod 16)) with
    | Some x, Some y => Ascii.eqb (ascii_of_N (16 * x + y)) c
    | _, _ => false
    end.

(** The 256 characters. *)
Definition all_ascii : list ascii := List.map ascii_of_nat (seq 0 256).

(** [s.split(c)]. *)
Fixpoint split (c : ascii) (s : string) : list string :=
  match s with
  | EmptyString => [EmptyString]
  | String a s' =>
      if Ascii.eqb a c then EmptyString :: split c s'
      else match split c s' with
           | h :: t => String a h :: t
           | [] => [String a EmptyString]
           end
  end.

(** The path segments that are not empty. *)
Definition segments (p : string) : list string :=
  List.filter (fun x => negb (text.is_empty x)) (split "/" p).

(** The characters of an escape. *)
Definition quoted_chars : string := "%0123456789ABCDEF".

(** Quoting with the slash kept writes a first character that is a slash
    exactly when the character quoted is one. *)
Definition quoter_head_agrees (c : ascii) : bool :=
  match urlparse.quoter "/" c with
  | String h _ => Bool.eqb (Ascii.eqb "/" h) (Ascii.eqb "/" c)
  | EmptyString => false
  end.

(** The characters that [quote] never escapes. *)
Definition unreserved (c : ascii) : bool :=
  (N_of_ascii c <? 128)%N && text.contains c urlparse.always_safe.

(** [api] is [base] with the one segment [seg] more in its path: both
    parse, to the same scheme, netloc, query and fragment, and the segments
    of [api] are those of [base] followed by [seg]. *)
Definition adds_segment (base api seg : string) : Prop :=
  exists r r',
    urlparse.urlsplit base = Ok r
    /\ urlparse.urlsplit api = Ok r'
    /\ urlparse.scheme r' = urlparse.scheme r
    /\ urlparse.netloc r' = urlparse.netloc r
    /\ urlparse.query r' = urlparse.query r
    /\ urlparse.fragment r' = urlparse.fragment r
    /\ segments (urlparse.path r') = segments (urlparse.path r) ++ [seg].

(** A connection and a state that holds it under the default name. *)
Definition example_conn : Connection :=
  mkConnection 0 (_get_session "a@b.com" "t") "a@b.com"
    "https://x.com/" "https://x.com/v1".

Definition example_state : State :=
  mkState {[ default_name := example_conn ]} 1.

(** * The registry *)

(** Every registered instance was allocated before [next_oid]. *)
Definition registry_wf (st : State) : Prop :=
  forall name conn, _connections st !! name = Some conn -> oid conn < next_oid st.

(** A sequence of calls of [connect], each with its email, token, url and
    name; the state after all of them, whatever each of them returned. *)
Definition connect_all (calls : list (string * string * string * string))
  (st : State) : State :=
  fold_left
    (fun st c =>
       let '(email, token, url, name) := c in
       snd (connect email token url name st))
    calls st.

(** No instance is registered under two names. *)
Definition distinct_instances (st : State) : Prop :=
  forall k1 k2 c1 c2,
    _connections st !! k1 = Some c1 ->
    _connections st !! k2 = Some c2 ->
    oid c1 = oid c2 -> k1 = k2.

(** What [connect] establishes of an instance before it registers it. *)
Definition registered_ok (c : Connection) : Prop :=
  validate_url (base_url c) = Ok true
  /\ adds_segment (base_url c) (api_url c) default_version
  /\ exists token, session c = _get_session (email c) token.

(** The same as [quoter_decodes], for quoting with the slash kept. *)
Definition quoter_slash_decodes (c : ascii) : bool :=
  if (N_of_ascii c <? 128)%N
     && (text.contains c urlparse.always_safe || text.contains c "/")
  then negb (Ascii.eqb c "%")
  else
    match urlparse.hex_value (urlparse.hex_digit (N_of_ascii c / 16)),
          urlparse.hex_value (urlparse.hex_digit (N_of_ascii c mod 16)) with
    | Some x, Some y => Ascii.eqb (ascii_of_N (16 * x + y)) c
    | _, _ => false
    end.

(** Quoting with the slash kept writes no slash for another character. *)
Definition quoter_slash_free (c : ascii) : bool :=
  Ascii.eqb c "/"
  || text.all (fun a => negb (Ascii.eqb a "/")) (urlparse.quoter "/" c).

(** The segments of a path, decoded. *)
Definition decoded_segments (p : string) : list string :=
  List.map urlparse.unquote (segments p).

(** ** Concatenation *)

Lemma sapp_nil_l (s : string) : (EmptyString +:+ s)%string = s.
Proof. reflexivity. Qed.

Lemma sapp_cons (c : ascii) (s t : string) :
  (String c s +:+ t)%string = String c (s +:+ t).
Proof. reflexivity. Qed.

Lemma sapp_single (c : ascii) (s : string) :
  (String c EmptyString +:+ s)%string = String c s.
Proof. reflexivity. Qed.

Lemma sapp_nil_r (s : string) : (s +:+ EmptyString)%string = s.
Proof. induction s as [|c s IH]; [reflexivity|]. by rewrite sapp_cons, IH. Qed.

Lemma sapp_assoc (s t u : string) :
  ((s +:+ t) +:+ u)%string = (s +:+ t +:+ u)%string.
Proof.
  induction s as [|c s IH]; [reflexivity|]. by rewrite !sapp_cons, IH.
Qed.

(** ** Characters of a string *)

Section chars.

Variables p q : ascii -> bool.

Lemma all_app (s t : string) :
  text.all p (s +:+ t) = text.all p s && text.all p t.
Proof.
  induction s as [|c s IH]; [reflexivity|].
  rewrite sapp_cons. cbn. rewrite IH. by rewrite andb_assoc.
Qed.

Lemma all_impl (s : string) :
  (forall c, p c = true -> q c = true) ->
  text.all p s = true -> text.all q s = true.
Proof.
  intros H. induction s as [|c s IH]; [reflexivity|]. cbn.
  intros [Hc Hs]%andb_prop. rewrite (H _ Hc). cbn. auto.
Qed.

Lemma all_contains (set : string) (c : ascii) :
  text.all p set = true -> text.contains c set = true -> p c = true.
Proof.
  induction set as [|a set IH]; [discriminate|]. cbn.
  intros [Ha Hs]%andb_prop. destruct (Ascii.eqb a c) eqn:E.
  - apply Ascii.eqb_eq in E. by subst.
  - auto.
Qed.

Lemma break_app (h t : string) :
  text.all (fun c => negb (p c)) h = true ->
  (t = EmptyString \/ exists c t', t = String c t' /\ p c = true) ->
  text.break p (h +:+ t) = (h, t).
Proof.
  intros Hh Ht. induction h as [|a h IH].
  - rewrite sapp_nil_l. destruct Ht as [->|(c & t' & -> & Hc)]; [reflexivity|].
    cbn. by rewrite Hc.
  - cbn in Hh. apply andb_prop in Hh as [Ha Hh].
    rewrite sapp_cons. cbn. apply negb_true_iff in Ha. rewrite Ha.
    by rewrite (IH Hh).
Qed.

Lemma break_spec (s : string) :
  s = (fst (text.break p s) +:+ snd (text.break p s))%string
  /\ text.all (fun c => negb (p c)) (fst (text.break p s)) = true
  /\ (snd (text.break p s) = EmptyString
      \/ exists c t', snd (text.break p s) = String c t' /\ p c = true).
Proof.
  induction s as [|a s (IH1 & IH2 & IH3)]; [by auto|]. cbn.
  destruct (p a) eqn:E.
  - cbn. repeat split. right. eauto.
  - destruct (text.break p s) as [h t]. cbn in *.
    rewrite sapp_cons, <- IH1, E. auto.
Qed.

Lemma lstrip_id (s : string) :
  match s with EmptyString => True | String c _ => p c = false end ->
  text.lstrip p s = s.
Proof. destruct s as [|c s]; [reflexivity|]. cbn. by intros ->. Qed.

Lemma all_lstrip (s : string) :
  text.all q s = true -> text.all q (text.lstrip p s) = true.
Proof.
  induction s as [|c s IH]; [reflexivity|]. cbn.
  intros [Hc Hs]%andb_prop. destruct (p c); [auto|]. cbn. by rewrite Hc, Hs.
Qed.

Lemma remove_id (s : string) :
  text.all (fun c => negb (p c)) s = true -> text.remove p s = s.
Proof.
  induction s as [|c s IH]; [reflexivity|]. cbn.
  intros [Hc Hs]%andb_prop. apply negb_true_iff in Hc. rewrite Hc.
  by rewrite IH.
Qed.

Lemma all_remove (s : string) :
  text.all (fun c => negb (p c)) (text.remove p s) = true.
Proof.
  induction s as [|c s IH]; [reflexivity|]. cbn.
  destruct (p c) eqn:E; [exact IH|]. cbn. by rewrite E, IH.
Qed.

End chars.

Lemma all_and (p q : ascii -> bool) (s : string) :
  text.all (fun c => p c && q c) s = text.all p s && text.all q s.
Proof.
  induction s as [|c s IH]; [reflexivity|]. cbn. rewrite IH.
  destruct (p c), (q c), (text.all p s); reflexivity.
Qed.

Lemma contains_absent (c : ascii) (s : string) :
  text.all (fun a => negb (Ascii.eqb c a)) s = negb (text.contains c s).
Proof.
  induction s as [|a s IH]; [reflexivity|]. cbn.
  rewrite (Ascii.eqb_sym a c). destruct (Ascii.eqb c a); [reflexivity|exact IH].
Qed.

(** A property of characters that holds on each of the 256 holds on all. *)
Lemma forall_ascii (P : ascii -> bool) :
  forallb P all_ascii = true -> forall c, P c = true.
Proof.
  intros H c. rewrite forallb_forall in H. apply H.
  rewrite <- (ascii_nat_embedding c). unfold all_ascii.
  apply in_map, in_seq. pose proof (nat_ascii_bounded c). lia.
Qed.

Ltac by_ascii_cases c :=
  revert c;
  match goal with
  | |- forall c, @?P c = true => apply (forall_ascii P); vm_compute; reflexivity
  end.

Lemma lower_scheme_char (c : ascii) :
  implb (text.contains c urlparse.scheme_chars)
        (text.contains (text.lower_char c) urlparse.scheme_chars) = true.
Proof. by_ascii_cases c. Qed.

Lemma lower_letter (c : ascii) :
  implb (text.contains c urlparse.ascii_letters)
        (text.contains (text.lower_char c) urlparse.ascii_letters) = true.
Proof. by_ascii_cases c. Qed.

Lemma lower_char_idem (c : ascii) :
  Ascii.eqb (text.lower_char (text.lower_char c)) (text.lower_char c) = true.
Proof. by_ascii_cases c. Qed.

Lemma scheme_char_facts (c : ascii) :
  implb (text.contains c urlparse.scheme_chars)
        (negb (Ascii.eqb ":" c) && plain c
         && negb (urlparse.c0_control_or_space c)) = true.
Proof. by_ascii_cases c. Qed.

Lemma implb_elim (a b : bool) : implb a b = true -> a = true -> b = true.
Proof. by destruct a, b. Qed.

Lemma lower_idem (s : string) : text.lower (text.lower s) = text.lower s.
Proof.
  induction s as [|c s IH]; [reflexivity|]. cbn. rewrite IH. f_equal.
  apply Ascii.eqb_eq, lower_char_idem.
Qed.

Lemma all_scheme_lower (s : string) :
  text.all (fun c => text.contains c urlparse.scheme_chars) s = true ->
  text.all (fun c => text.contains c urlparse.scheme_chars) (text.lower s) = true.
Proof.
  induction s as [|c s IH]; [reflexivity|]. cbn -[urlparse.scheme_chars].
  intros [Hc Hs]%andb_prop.
  rewrite (implb_elim _ _ (lower_scheme_char c) Hc). cbn. auto.
Qed.

(** ** What [urlsplit] returns *)

Lemma partition_spec (c : ascii) (s : string) :
  let '(h, b, t) := text.partition c s in
  text.all (fun a => negb (Ascii.eqb c a)) h = true
  /\ s = (h +:+ (if b then String c t else EmptyString))%string
  /\ (b = false -> t = EmptyString).
Proof.
  unfold text.partition.
  destruct (break_spec (Ascii.eqb c) s) as (H1 & H2 & H3).
  destruct (text.break (Ascii.eqb c) s) as [h t]. cbn in *.
  destruct t as [|a t].
  - rewrite sapp_nil_r in H1. rewrite sapp_nil_r. auto.
  - destruct H3 as [?|(a' & t' & [= -> ->] & E)]; [discriminate|].
    apply Ascii.eqb_eq in E. subst a'. split; [exact H2|]. split; [exact H1|].
    discriminate.
Qed.

Lemma partition_all (q : ascii -> bool) (c : ascii) (s : string) :
  text.all q s = true ->
  text.all q (fst (fst (text.partition c s))) = true
  /\ text.all q (snd (text.partition c s)) = true.
Proof.
  pose proof (partition_spec c s) as H.
  destruct (text.partition c s) as [[h b] t]. cbn.
  destruct H as (_ & -> & Hb). rewrite all_app.
  intros [Hh Ht]%andb_prop. split; [exact Hh|].
  destruct b; [|by rewrite Hb]. cbn in Ht. by apply andb_prop in Ht as [_ ?].
Qed.

Lemma split_scheme_spec (x : string) :
  valid_scheme (fst (urlparse.split_scheme x)) = true
  /\ forall q, text.all q x = true ->
       text.all q (snd (urlparse.split_scheme x)) = true.
Proof.
  unfold urlparse.split_scheme.
  destruct (text.partition ":" x) as [[h b] t] eqn:E.
  assert (forall q, text.all q x = true -> text.all q t = true) as Ht.
  { intros q Hq. pose proof (partition_all q ":" x Hq) as [_ H].
    by rewrite E in H. }
  destruct h as [|a pre]; [by split|].
  destruct b; [|by split].
  destruct (text.contains a urlparse.ascii_letters
            && text.all (fun c => text.contains c urlparse.scheme_chars)
                 (String a pre)) eqn:C; [|by split].
  apply andb_prop in C as [Ca Cs]. split; [|exact Ht].
  cbn [fst]. unfold valid_scheme.
  rewrite (all_scheme_lower _ Cs), lower_idem, String.eqb_refl.
  cbn [text.lower head_is_letter].
  rewrite (implb_elim _ _ (lower_letter a) Ca). reflexivity.
Qed.

Lemma all_drop (q : ascii -> bool) (n : nat) (s : string) :
  text.all q s = true -> text.all q (text.drop n s) = true.
Proof.
  revert s. induction n as [|n IH]; intros [|c s]; cbn; auto.
  intros [_ H]%andb_prop. auto.
Qed.

Lemma split_netloc_spec (x netloc rest : string) :
  urlparse.split_netloc x = Ok (netloc, rest) ->
  text.all (fun c => negb (urlparse.is_delim c)) netloc = true
  /\ urlparse.unbalanced_brackets netloc = false
  /\ forall q, text.all q x = true ->
       text.all q netloc = true /\ text.all q rest = true.
Proof.
  unfold urlparse.split_netloc, urlparse._splitnetloc.
  destruct (text.startswith "//" x); [|by intros [= <- <-]].
  destruct (break_spec urlparse.is_delim (text.drop 2 x)) as (H1 & H2 & _).
  destruct (text.break urlparse.is_delim (text.drop 2 x)) as [h t].
  cbn [fst snd] in H1, H2.
  destruct (urlparse.unbalanced_brackets h) eqn:U; [discriminate|].
  intros [= <- <-]. split; [exact H2|]. split; [exact U|].
  intros q Hq. apply (all_drop q 2) in Hq. rewrite H1, all_app in Hq.
  by apply andb_prop in Hq.
Qed.

Lemma split_once_spec (c : ascii) (x : string) :
  text.all (fun a => negb (Ascii.eqb c a)) (fst (urlparse.split_once c x)) = true
  /\ forall q, text.all q x = true ->
       text.all q (fst (urlparse.split_once c x)) = true
       /\ text.all q (snd (urlparse.split_once c x)) = true.
Proof.
  unfold urlparse.split_once.
  pose proof (partition_spec c x) as H.
  pose proof (fun q => partition_all q c x) as A.
  destruct (text.partition c x) as [[h b] t]. cbn in *.
  destruct H as (H & _). auto.
Qed.

Lemma urlsplit_of_validate (url : string) (b : bool) :
  validate_url url = Ok b -> exists r, urlparse.urlsplit url = Ok r.
Proof.
  unfold validate_url, urlobject.scheme, urlobject.URLObject.
  destruct (urlparse.urlsplit url) as [r|e] eqn:E; [eauto | discriminate].
Qed.

Lemma init_of_urlsplit (n : nat) (url email token version : string)
    (r : urlparse.SplitResult) :
  urlparse.urlsplit url = Ok r ->
  __init__ n url email token version =
    Ok (mkConnection n (_get_session email token) email url
          (urlparse.urlunsplit
             (urlparse.mkSplitResult (urlparse.scheme r) (urlparse.netloc r)
                (urlobject.add_segment (urlparse.path r) version)
                (urlparse.query r) (urlparse.fragment r)))).
Proof.
  intros E.
  unfold __init__, urlobject.add_path_segment, urlobject.path,
    urlobject.with_path, urlobject.URLObject, urlobject.URLPath.
  rewrite E. reflexivity.
Qed.

Lemma registry_wf_initial : registry_wf initial.
Proof. intros name conn H. cbn in H. by rewrite lookup_empty in H. Qed.

Lemma connect_oid (email token url name : string) (st : State)
    (conn : Connection) (st' : State) :
  connect email token url name st = (Ok conn, st') -> oid conn = next_oid st.
Proof.
  unfold connect.
  destruct (_connections st !! name); [discriminate|].
  destruct (validate_url url) as [b|e] eqn:V; [|discriminate].
  destruct (urlsplit_of_validate _ _ V) as [r E].
  rewrite (init_of_urlsplit _ _ _ _ _ _ E).
  intros [= <- _]. reflexivity.
Qed.

Lemma connect_preserves_wf (email token url name : string) (st : State) :
  registry_wf st -> registry_wf (snd (connect email token url name st)).
Proof.
  intros W. unfold connect.
  destruct (_connections st !! name) eqn:L; [exact W|].
  destruct (validate_url url) as [b|e] eqn:V; [|exact W].
  destruct (urlsplit_of_validate _ _ V) as [r E].
  rewrite (init_of_urlsplit _ _ _ _ _ _ E). cbn.
  intros k c. cbn. rewrite lookup_insert.
  case_decide as Hk.
  - intros [= <-]. cbn. lia.
  - intros H. apply W in H. lia.
Qed.

(** C1: when [url] passes validation and [name] is free, [connect] returns
    a new instance, stores that very instance under [name] and leaves the
    other entries alone, so that [get name] then returns the instance that
    [connect] returned. *)
Theorem connect_then_get (email token url name : string) (st : State) :
  validate_url url = Ok true ->
  _connections st !! name = None ->
  exists conn st',
    connect email token url name st = (Ok conn, st')
    /\ oid conn = next_oid st
    /\ _connections st' = <[name := conn]> (_connections st)
    /\ get name st' = Ok conn.
Proof.
  intros V L.
  destruct (urlsplit_of_validate _ _ V) as [r E].
  unfold connect. rewrite L, V, (init_of_urlsplit _ _ _ _ _ _ E).
  eexists _, _. split; [reflexivity|].
  repeat split. unfold get. cbn. by rewrite lookup_insert_eq.
Qed.

Lemma connect_then_get_witness :
  exists conn st',
    connect "a@b.com" "t" _default_url "default" initial = (Ok conn, st')
    /\ oid conn = next_oid initial
    /\ _connections st' = <[default_name := conn]> (_connections initial)
    /\ get "default" st' = Ok conn.
Proof.
  apply (connect_then_get "a@b.com" "t" _default_url "default" initial).
  - vm_compute. reflexivity.
  - reflexivity.
Defined.

(** The instance that a successful [connect] returns is not one of those
    registered before. *)
Lemma connect_fresh (email token url name other : string) (st st' : State)
    (conn old : Connection) :
  registry_wf st ->
  connect email token url name st = (Ok conn, st') ->
  _connections st !! other = Some old ->
  oid old <> oid conn.
Proof.
  intros W C L. apply connect_oid in C. apply W in L. lia.
Qed.

Lemma includes_app (pre needle post : string) :
  includes needle (pre +:+ needle +:+ post).
Proof. by exists pre, post. Qed.

Lemma duplicate_message_includes_email (name : string) (existing : Connection) :
  includes (email existing) (duplicate_message name existing).
Proof.
  unfold duplicate_message.
  exists ("`" +:+ name +:+ "` is already connected using account " +:+ dquote)%string,
         dquote.
  rewrite !sapp_assoc. reflexivity.
Qed.

(** C2: when [name] is taken, [connect] raises [ValueError] with a message
    that includes the email of the registered instance; the state is the
    one before the call, and [get name] still returns that instance. *)
Theorem connect_duplicate (email token url name : string) (st : State)
    (existing : Connection) :
  _connections st !! name = Some existing ->
  connect email token url name st =
    (Raise (ValueError (duplicate_message name existing)), st)
  /\ includes (connection.email existing) (duplicate_message name existing)
  /\ get name (snd (connect email token url name st)) = Ok existing.
Proof.
  intros L. unfold connect. rewrite L. cbn.
  split; [reflexivity|]. split.
  - apply duplicate_message_includes_email.
  - unfold get. by rewrite L.
Qed.

(** C10: the test for a taken name comes first: whatever [url] is, and
    whatever [validate_url] would say about it, [connect] on a taken name
    raises the [ValueError] of the duplicate and no [MisconfiguredError],
    and the state stays as it was. *)
Theorem connect_duplicate_before_validation (email token url name : string)
    (st : State) (existing : Connection) :
  _connections st !! name = Some existing ->
  fst (connect email token url name st) =
    Raise (ValueError (duplicate_message name existing))
  /\ (forall msg,
        fst (connect email token url name st) <> Raise (MisconfiguredError msg))
  /\ snd (connect email token url name st) = st.
Proof.
  intros L. unfold connect. rewrite L. cbn.
  repeat split. intros msg. discriminate.
Qed.

(** C7: [get] on a name that is not registered raises
    [MisconfiguredError]; for [default] the message tells to connect first,
    for any other name it quotes the name twice, the second time as the
    [name=] argument to pass to [connect]. *)
Theorem get_unregistered (name : string) (st : State) :
  _connections st !! name = None ->
  (name = "default"%string ->
     get name st = Raise (MisconfiguredError
       "There is no default connection. First try prospyr.connect(...)"))
  /\ (name <> "default"%string ->
     get name st = Raise (MisconfiguredError
       ("There is no connection named " +:+ dquote +:+ name +:+ dquote
        +:+ ". First try prospyr.connect(..., name="
        +:+ dquote +:+ name +:+ dquote +:+ ")"))
     /\ includes name (no_such_message name)).
Proof.
  intros L. unfold get. rewrite L. split.
  - intros ->. reflexivity.
  - intros Hne. apply String.eqb_neq in Hne. rewrite Hne. split.
    + reflexivity.
    + unfold no_such_message.
      exists ("There is no connection named " +:+ dquote)%string. eexists.
      rewrite !sapp_assoc. reflexivity.
Qed.

(** C5: with one or more segments, [url_join] applies the first and
    ignores the others. *)
Theorem url_join_first_only (base p1 : string) (rest : list string) :
  url_join base (p1 :: rest) = url_join base [p1].
Proof. reflexivity. Qed.

(** C8: for each of the six verbs, the attribute is a callable; calling it
    is calling [http_method] with the verb, which calls the attribute of
    that name of the session with the same arguments and returns the answer
    as it comes.  Every other name that reaches [__getattr__] raises
    [AttributeError]. *)
Theorem verb_dispatch (PyVal Response : Type) (conn : Connection)
    (verb url : string) (args : list PyVal) (kwargs : list (string * PyVal)) :
  In verb methods ->
  (exists f,
      __getattr__ conn verb = Ok f
      /\ call (Response := Response) f url args kwargs
         = http_method conn verb url args kwargs
      /\ http_method (Response := Response) conn verb url args kwargs
         = SessionCall (session conn) verb url args kwargs Return)
  /\ (forall name, ~ In name methods ->
        exists msg, __getattr__ conn name = Raise (AttributeError msg)).
Proof.
  intros Hin. split.
  - exists (partial_http_method conn verb). split; [|split; reflexivity].
    unfold __getattr__.
    assert (urlparse.in_list verb methods = true) as ->; [|reflexivity].
    apply existsb_exists. exists verb. split; [exact Hin|apply String.eqb_refl].
  - intros name Hn. eexists. unfold __getattr__.
    destruct (urlparse.in_list name methods) eqn:E; [|reflexivity].
    apply existsb_exists in E as (x & Hx & Heq).
    apply String.eqb_eq in Heq. subst x. contradiction.
Qed.

(** C9: the session of a connection carries the five headers, two of them
    with the token and the email given at construction. *)
Theorem session_headers (email token : string) :
  let h := requests.headers (_get_session email token) in
  requests.header_get "X-PW-Application" h = Some "developer_api"%string
  /\ requests.header_get "X-PW-AccessToken" h = Some token
  /\ requests.header_get "X-PW-UserEmail" h = Some email
  /\ requests.header_get "Accept" h = Some "application/json"%string
  /\ requests.header_get "Content-Type" h = Some "application/json"%string
  /\ forall n url version conn,
       __init__ n url email token version = Ok conn ->
       session conn = _get_session email token.
Proof.
  cbn zeta. repeat split; try (vm_compute; reflexivity).
  intros n url version conn. unfold __init__.
  destruct (urlobject.add_path_segment _ _); [|discriminate].
  intros [= <-]. reflexivity.
Qed.

(** ** Splitting and putting together *)

Lemma plain_path_char (s : string) :
  text.all plain s = true ->
  text.all (fun a => negb (Ascii.eqb "?" a)) s = true ->
  text.all (fun a => negb (Ascii.eqb "#" a)) s = true ->
  text.all path_char s = true.
Proof.
  intros H1 H2 H3. unfold path_char.
  rewrite !all_and, H1, andb_true_r. apply andb_true_intro. split.
  - revert H2. apply all_impl. intros c. by rewrite Ascii.eqb_sym.
  - revert H3. apply all_impl. intros c. by rewrite Ascii.eqb_sym.
Qed.

(** The components that [urlsplit] returns are well formed. *)
Lemma urlsplit_components (u : string) (r : urlparse.SplitResult) :
  urlparse.urlsplit u = Ok r -> components_ok r = true.
Proof.
  unfold urlparse.urlsplit.
  set (u2 := text.remove _ (text.lstrip _ u)).
  assert (text.all plain u2 = true) as P2 by apply all_remove.
  destruct (split_scheme_spec u2) as [S1 S2].
  destruct (urlparse.split_scheme u2) as [sch u3]. cbn [fst snd] in S1, S2.
  apply S2 in P2 as P3.
  destruct (urlparse.split_netloc u3) as [[nl u4]|e] eqn:N; [|discriminate].
  cbn. destruct (split_netloc_spec _ _ _ N) as (N1 & N2 & N3).
  destruct (N3 _ P3) as [Pn P4].
  destruct (split_once_spec "#" u4) as [F1 F2].
  destruct (urlparse.split_once "#" u4) as [u5 frag]. cbn [fst snd] in F1, F2.
  destruct (F2 _ P4) as [P5 Pf].
  destruct (split_once_spec "?" u5) as [Q1 Q2].
  destruct (urlparse.split_once "?" u5) as [pth qry]. cbn [fst snd] in Q1, Q2.
  destruct (Q2 _ P5) as [Pp Pq]. destruct (Q2 _ F1) as [Hp Hq].
  intros [= <-]. unfold components_ok. cbn.
  rewrite S1, N2, Pf. cbn.
  unfold netloc_char, query_char. rewrite !all_and, N1, Pn, Pq. cbn.
  rewrite (plain_path_char _ Pp Q1 Hp). cbn.
  rewrite !andb_true_r. revert Hq. apply all_impl. intros c.
  by rewrite Ascii.eqb_sym.
Qed.

Lemma is_empty_true (s : string) : text.is_empty s = true <-> s = EmptyString.
Proof. destruct s; cbn; split; (done || discriminate). Qed.

Lemma split_once_opt (c : ascii) (x y : string) :
  text.all (fun a => negb (Ascii.eqb c a)) x = true ->
  urlparse.split_once c (x +:+ opt_after c y) = (x, y).
Proof.
  intros H. unfold urlparse.split_once, text.partition, opt_after.
  destruct y as [|b y]; cbn [text.is_empty].
  - rewrite (break_app (Ascii.eqb c) x EmptyString H); [reflexivity|by left].
  - rewrite (break_app (Ascii.eqb c) x (String c (String b y)) H);
      [reflexivity|].
    right. exists c, (String b y). split; [reflexivity|apply Ascii.eqb_refl].
Qed.

(** What [urlunsplit] writes when there is a netloc. *)
Lemma urlunsplit_netloc (r : urlparse.SplitResult) :
  urlparse.netloc r <> EmptyString ->
  urlparse.urlunsplit r =
    (opt_before (urlparse.scheme r) ":" +:+ "//" +:+ urlparse.netloc r
     +:+ rooted (urlparse.path r) +:+ opt_after "?" (urlparse.query r)
     +:+ opt_after "#" (urlparse.fragment r))%string.
Proof.
  intros Hn. unfold urlparse.urlunsplit, opt_before, opt_after, rooted.
  destruct (text.is_empty (urlparse.netloc r)) eqn:E;
    [by apply is_empty_true in E|].
  cbn [negb orb].
  destruct (text.is_empty (urlparse.scheme r)),
           (text.is_empty (urlparse.query r)),
           (text.is_empty (urlparse.fragment r)); cbn [negb];
    rewrite ?sapp_assoc, ?sapp_nil_r, ?sapp_nil_l; reflexivity.
Qed.

Lemma letter_not_stripped (c : ascii) :
  implb (text.contains c urlparse.ascii_letters)
        (negb (urlparse.c0_control_or_space c)) = true.
Proof. by_ascii_cases c. Qed.

Lemma startswith_slash (p : string) :
  text.startswith "/" p = true -> exists p', p = String "/" p'.
Proof.
  destruct p as [|c p]; [discriminate|]. cbn [text.startswith].
  rewrite andb_true_r. intros ->%Ascii.eqb_eq. eauto.
Qed.

Lemma rooted_cases (p : string) :
  rooted p = EmptyString /\ p = EmptyString
  \/ exists p', rooted p = String "/" p'.
Proof.
  unfold rooted. destruct p as [|c p]; [by left|]. right.
  cbn [text.is_empty negb andb].
  destruct (text.startswith "/" (String c p)) eqn:E; cbn [negb].
  - apply startswith_slash in E as [p' ->]. eauto.
  - eauto.
Qed.

Lemma all_rooted (q : ascii -> bool) (p : string) :
  q "/" = true -> text.all q p = true -> text.all q (rooted p) = true.
Proof.
  intros Hq Hp. unfold rooted.
  destruct (negb (text.is_empty p) && negb (text.startswith "/" p));
    [|exact Hp].
  rewrite sapp_cons, sapp_nil_l. cbn. by rewrite Hq, Hp.
Qed.

Lemma all_opt_after (q : ascii -> bool) (c : ascii) (s : string) :
  q c = true -> text.all q s = true -> text.all q (opt_after c s) = true.
Proof.
  intros Hc Hs. unfold opt_after. destruct (text.is_empty s); [reflexivity|].
  cbn. by rewrite Hc, Hs.
Qed.

Lemma valid_scheme_chars (s : string) :
  valid_scheme s = true ->
  text.all (fun c => negb (Ascii.eqb ":" c) && plain c
                     && negb (urlparse.c0_control_or_space c)) s = true.
Proof.
  unfold valid_scheme. destruct s as [|a s]; [reflexivity|].
  cbn [text.is_empty orb]. intros [[_ H]%andb_prop _]%andb_prop.
  revert H. apply all_impl. intros c. apply implb_elim, scheme_char_facts.
Qed.

Lemma split_scheme_built (s body : string) :
  valid_scheme s = true ->
  urlparse.split_scheme (opt_before s ":" +:+ String "/" body)
  = (s, String "/" body).
Proof.
  intros V. pose proof (valid_scheme_chars _ V) as C.
  unfold opt_before. destruct s as [|a s]; cbn [text.is_empty].
  - rewrite sapp_nil_l. unfold urlparse.split_scheme, text.partition.
    cbn [text.break]. change (Ascii.eqb ":" "/") with false. cbn iota.
    destruct (text.break (Ascii.eqb ":") body) as [h [|c t]]; reflexivity.
  - rewrite sapp_assoc, (sapp_single ":").
    unfold urlparse.split_scheme, text.partition.
    rewrite (break_app (Ascii.eqb ":") (String a s)).
    + unfold valid_scheme in V. cbn [text.is_empty orb] in V.
      apply andb_prop in V as [[V1 V2]%andb_prop V3].
      cbn [head_is_letter] in V1. rewrite V1, V2.
      apply String.eqb_eq in V3. by rewrite V3.
    + revert C. apply all_impl. intros c.
      by intros [[? _]%andb_prop _]%andb_prop.
    + right. by exists ":"%char, (String "/" body).
Qed.

Lemma split_netloc_built (n tail : string) :
  text.all (fun c => negb (urlparse.is_delim c)) n = true ->
  urlparse.unbalanced_brackets n = false ->
  (tail = EmptyString
   \/ exists c t', tail = String c t' /\ urlparse.is_delim c = true) ->
  urlparse.split_netloc (String "/" (String "/" (n +:+ tail))) = Ok (n, tail).
Proof.
  intros Hn Hb Ht. unfold urlparse.split_netloc, urlparse._splitnetloc.
  cbn [text.startswith text.drop].
  change (Ascii.eqb "/" "/") with true. cbn [andb].
  rewrite (break_app _ _ _ Hn Ht). by rewrite Hb.
Qed.

(** Splitting what [urlunsplit] wrote gives the components back, the path
    with the leading slash that [urlunsplit] added. *)
Lemma urlsplit_urlunsplit (r : urlparse.SplitResult) :
  components_ok r = true ->
  urlparse.netloc r <> EmptyString ->
  urlparse.urlsplit (urlparse.urlunsplit r)
  = Ok (replace_path r (rooted (urlparse.path r))).
Proof.
  intros C Hn. rewrite (urlunsplit_netloc r Hn).
  destruct r as [s n p qy f]. cbn [urlparse.scheme urlparse.netloc
    urlparse.path urlparse.query urlparse.fragment] in *.
  unfold components_ok in C. cbn in C.
  repeat (apply andb_prop in C as [C ?]).
  rename C into Vs, H3 into Vn, H2 into Vb, H1 into Vp, H0 into Vq, H into Vf.
  apply negb_true_iff in Vb.
  unfold netloc_char in Vn. rewrite all_and in Vn.
  apply andb_prop in Vn as [Vn Pn].
  unfold path_char in Vp. rewrite !all_and in Vp.
  apply andb_prop in Vp as [[Vp1 Vp2]%andb_prop Pp].
  unfold query_char in Vq. rewrite all_and in Vq.
  apply andb_prop in Vq as [Vq1 Pq].
  pose proof (valid_scheme_chars _ Vs) as Cs.
  set (tail := (rooted p +:+ opt_after "?" qy +:+ opt_after "#" f)%string).
  rewrite (sapp_cons "/"), (sapp_cons "/"), sapp_nil_l.
  set (body := String "/" (n +:+ tail)).
  set (U := (opt_before s ":" +:+ String "/" body)%string).
  assert (text.all plain U = true) as PU.
  { unfold U, body, tail, opt_before.
    rewrite all_app. apply andb_true_intro. split.
    - destruct (text.is_empty s); [reflexivity|]. rewrite all_app. cbn.
      rewrite andb_true_r. revert Cs. apply all_impl. intros c.
      by intros [[_ ?]%andb_prop _]%andb_prop.
    - cbn. rewrite !all_app, Pn. cbn.
      rewrite (all_rooted plain p eq_refl Pp).
      rewrite (all_opt_after plain "?" qy eq_refl Pq).
      by rewrite (all_opt_after plain "#" f eq_refl Vf). }
  unfold urlparse.urlsplit.
  rewrite (lstrip_id urlparse.c0_control_or_space U).
  2:{ unfold U, opt_before. destruct s as [|a s]; [reflexivity|].
      cbn [text.is_empty]. rewrite !sapp_cons.
      cbn in Cs. apply andb_prop in Cs as [[_ Ca]%andb_prop _].
      by apply negb_true_iff in Ca. }
  rewrite (remove_id urlparse.unsafe_url_byte U PU).
  unfold U. rewrite (split_scheme_built s body Vs).
  unfold body. rewrite (split_netloc_built n tail Vn Vb).
  2:{ unfold tail. destruct (rooted_cases p) as [[-> _]|[p' ->]].
      - rewrite sapp_nil_l. unfold opt_after.
        destruct (text.is_empty qy).
        + rewrite sapp_nil_l. destruct (text.is_empty f); [by left|].
          right. by exists "#"%char, f.
        + right. rewrite sapp_cons. eexists "?"%char, _. by split.
      - right. rewrite sapp_cons. eexists "/"%char, _. by split. }
  cbn. unfold tail.
  rewrite <- sapp_assoc.
  rewrite (split_once_opt "#").
  2:{ rewrite all_app. apply andb_true_intro. split.
      - apply all_rooted; [reflexivity|].
        revert Vp2. apply all_impl. intros c. by rewrite Ascii.eqb_sym.
      - apply all_opt_after; [reflexivity|].
        revert Vq1. apply all_impl. intros c. by rewrite Ascii.eqb_sym. }
  rewrite (split_once_opt "?"); [reflexivity|].
  apply all_rooted; [reflexivity|].
  revert Vp1. apply all_impl. intros c. by rewrite Ascii.eqb_sym.
Qed.

(** ** Percent-encoding *)

Lemma percent_hex_chars (c : ascii) :
  text.all (fun a => text.contains a quoted_chars) (urlparse.percent_hex c)
  = true.
Proof. by_ascii_cases c. Qed.

Lemma quoter_nonempty (safe : string) (c : ascii) :
  exists h t, urlparse.quoter safe c = String h t.
Proof.
  unfold urlparse.quoter, urlparse.percent_hex.
  destruct (_ && _); eauto.
Qed.

(** Every character of a quoted string is always safe, or in [safe], or
    part of an escape. *)
Lemma quote_chars (q : ascii -> bool) (s safe : string) :
  text.all q urlparse.always_safe = true ->
  text.all q safe = true ->
  text.all q quoted_chars = true ->
  text.all q (urlparse.quote s safe) = true.
Proof.
  intros Ha Hs Hq. induction s as [|c s IH]; [reflexivity|].
  cbn [urlparse.quote]. rewrite all_app, IH, andb_true_r.
  unfold urlparse.quoter.
  destruct (N_of_ascii c <? 128)%N; cbn [andb].
  - destruct (text.contains c urlparse.always_safe) eqn:E1; cbn [orb].
    + cbn. by rewrite (all_contains q _ c Ha E1).
    + destruct (text.contains c safe) eqn:E2.
      * cbn. by rewrite (all_contains q _ c Hs E2).
      * generalize (percent_hex_chars c). apply all_impl.
        intros a. by apply all_contains.
  - generalize (percent_hex_chars c). apply all_impl.
    intros a. by apply all_contains.
Qed.

Lemma quote_empty (s safe : string) :
  urlparse.quote s safe = EmptyString -> s = EmptyString.
Proof.
  destruct s as [|c s]; [reflexivity|]. cbn [urlparse.quote].
  destruct (quoter_nonempty safe c) as (h & t & ->). discriminate.
Qed.

(** With only always safe characters there is nothing to escape. *)
Lemma quote_unreserved (s safe : string) :
  text.all unreserved s = true ->
  urlparse.quote s safe = s.
Proof.
  induction s as [|c s IH]; [reflexivity|]. cbn [text.all urlparse.quote].
  unfold unreserved at 1.
  intros [[H1 H2]%andb_prop Hs]%andb_prop. rewrite (IH Hs).
  unfold urlparse.quoter. by rewrite H1, H2.
Qed.

Lemma quoter_head (c : ascii) : quoter_head_agrees c = true.
Proof. by_ascii_cases c. Qed.

(** Quoting with [/] kept does not change whether the text is absolute. *)
Lemma startswith_quote (p : string) :
  text.startswith "/" (urlparse.quote p "/") = text.startswith "/" p.
Proof.
  destruct p as [|c p]; [reflexivity|]. cbn [urlparse.quote text.startswith].
  pose proof (quoter_head c) as H. unfold quoter_head_agrees in H.
  destruct (urlparse.quoter "/" c) as [|h t]; [discriminate|].
  rewrite sapp_cons. cbn [text.startswith]. rewrite !andb_true_r.
  by apply Bool.eqb_prop in H.
Qed.

(** ** [posixpath.join] *)

Lemma join_step_chars (q : ascii -> bool) (path b : string) :
  q "/" = true -> text.all q path = true -> text.all q b = true ->
  text.all q (posixpath.join_step path b) = true.
Proof.
  intros Hq Hp Hb. unfold posixpath.join_step.
  destruct (text.startswith "/" b); [exact Hb|].
  destruct (text.is_empty path || text.endswith "/" path).
  - by rewrite all_app, Hp, Hb.
  - rewrite all_app, Hp, (sapp_single "/"). cbn [text.all andb].
    by rewrite Hq, Hb.
Qed.

Lemma path_char_quote (s safe : string) :
  text.all path_char safe = true ->
  text.all path_char (urlparse.quote s safe) = true.
Proof. intros H. by apply quote_chars. Qed.

(** * Joining and the versioned URL *)

Lemma components_ok_replace (r : urlparse.SplitResult) (p : string) :
  components_ok r = true -> text.all path_char p = true ->
  components_ok (replace_path r p) = true.
Proof.
  unfold components_ok. cbn. intros C Hp.
  repeat (apply andb_prop in C as [C ?]).
  repeat (apply andb_true_intro; split); auto.
Qed.

Lemma components_ok_path (r : urlparse.SplitResult) :
  components_ok r = true -> text.all path_char (urlparse.path r) = true.
Proof.
  unfold components_ok. intros C.
  repeat (apply andb_prop in C as [C ?]). assumption.
Qed.

(** [with_path] on a URL that parses, and what parsing the result gives. *)
Lemma with_path_spec (url p : string) (r : urlparse.SplitResult) :
  urlparse.urlsplit url = Ok r ->
  urlobject.with_path url p = Ok (urlparse.urlunsplit (replace_path r p)).
Proof. intros E. unfold urlobject.with_path. by rewrite E. Qed.

Lemma add_path_spec (url p : string) (r : urlparse.SplitResult) :
  urlparse.urlsplit url = Ok r ->
  urlobject.add_path url p =
    Ok (urlparse.urlunsplit
          (replace_path r
             (posixpath.join_step (urlparse.path r) (urlparse.quote p "/")))).
Proof.
  intros E. unfold urlobject.add_path, urlobject.path.
  rewrite E. cbn. by apply with_path_spec.
Qed.

(** C4: without segments [url_join] returns the base as it is.  With one
    segment [p] on a base that parses, the path written into the result is
    the quoted [p] alone when [p] begins with a slash, and otherwise the
    path of the base followed by the quoted [p], with a slash between them
    unless the path of the base is empty or ends with one.  When the base
    has a netloc, parsing the result gives that path back (behind the
    leading slash that a path after a netloc always has) and the other
    components of the base. *)
Theorem url_join_semantics (base p : string) (r : urlparse.SplitResult) :
  urlparse.urlsplit base = Ok r ->
  let seg := urlparse.quote p "/" in
  let joined :=
    if text.startswith "/" p then seg
    else if text.is_empty (urlparse.path r)
            || text.endswith "/" (urlparse.path r)
         then (urlparse.path r +:+ seg)%string
         else (urlparse.path r +:+ "/" +:+ seg)%string in
  url_join base [] = Ok base
  /\ url_join base [p] = Ok (urlparse.urlunsplit (replace_path r joined))
  /\ (urlparse.netloc r <> EmptyString ->
      urlparse.urlsplit (urlparse.urlunsplit (replace_path r joined))
      = Ok (replace_path r (rooted joined)))
  /\ (text.startswith "/" p = true -> rooted joined = seg)
  /\ url_join "https://api.example.com/v1" ["widgets/123"%string]
     = Ok "https://api.example.com/v1/widgets/123"%string.
Proof.
  intros E seg joined.
  assert (joined = posixpath.join_step (urlparse.path r) seg) as J.
  { unfold joined, posixpath.join_step, seg. by rewrite startswith_quote. }
  split; [reflexivity|]. split.
  { unfold url_join, urlobject.URLObject, urlobject.URLPath.
    rewrite (add_path_spec _ _ _ E). by rewrite J. }
  split.
  { intros Hn. pose proof (urlsplit_components _ _ E) as C.
    apply (urlsplit_urlunsplit (replace_path r joined)); [|exact Hn].
    apply components_ok_replace; [exact C|]. rewrite J.
    apply join_step_chars; [reflexivity|by apply components_ok_path|].
    by apply path_char_quote. }
  split; [|vm_compute; reflexivity].
  intros A. unfold joined. rewrite A. unfold rooted.
  unfold seg. by rewrite startswith_quote, A, andb_false_r.
Qed.

Lemma url_join_semantics_witness :
  url_join "https://api.example.com/v1" ["/widgets"%string]
  = Ok "https://api.example.com/widgets"%string.
Proof.
  destruct (url_join_semantics "https://api.example.com/v1" "/widgets"
              (urlparse.mkSplitResult "https" "api.example.com" "/v1"
                 EmptyString EmptyString))
    as (_ & H & _).
  - vm_compute. reflexivity.
  - rewrite H. vm_compute. reflexivity.
Defined.

(** ** Path segments *)

Lemma split_nonempty (c : ascii) (s : string) : split c s <> [].
Proof.
  induction s as [|a s IH]; [discriminate|]. cbn.
  destruct (Ascii.eqb a c); [discriminate|].
  destruct (split c s); discriminate.
Qed.

Lemma split_app_sep (c : ascii) (a b : string) :
  split c (a +:+ String c b) = split c a ++ split c b.
Proof.
  induction a as [|x a IH].
  - rewrite sapp_nil_l. cbn. by rewrite Ascii.eqb_refl.
  - rewrite sapp_cons. cbn [split]. rewrite IH.
    destruct (Ascii.eqb x c); [reflexivity|].
    pose proof (split_nonempty c a) as N.
    destruct (split c a) as [|h t]; [contradiction|]. reflexivity.
Qed.

Lemma split_no_sep (c : ascii) (s : string) :
  text.all (fun a => negb (Ascii.eqb a c)) s = true -> split c s = [s].
Proof.
  induction s as [|a s IH]; [reflexivity|]. cbn.
  intros [Ha Hs]%andb_prop. apply negb_true_iff in Ha. rewrite Ha.
  by rewrite (IH Hs).
Qed.

Lemma endswith_app (c : ascii) (s : string) :
  text.endswith c s = true -> exists s', s = (s' +:+ String c EmptyString)%string.
Proof.
  induction s as [|a s IH]; [discriminate|].
  destruct s as [|b s].
  - cbn. intros ->%Ascii.eqb_eq. by exists EmptyString.
  - intros H. destruct (IH H) as [s' ->]. by exists (String a s').
Qed.

Lemma segments_app_sep (a b : string) :
  segments (a +:+ String "/" b) = segments a ++ segments b.
Proof. unfold segments. by rewrite split_app_sep, List.filter_app. Qed.

Lemma segments_single (s : string) :
  s <> EmptyString ->
  text.all (fun a => negb (Ascii.eqb a "/")) s = true ->
  segments s = [s].
Proof.
  intros Hs H. unfold segments. rewrite (split_no_sep _ _ H). cbn.
  destruct s; [contradiction|reflexivity].
Qed.

(** Joining a segment that is not empty and has no slash adds that one
    segment and nothing else. *)
Lemma join_step_segments (path seg : string) :
  seg <> EmptyString ->
  text.all (fun a => negb (Ascii.eqb a "/")) seg = true ->
  segments (posixpath.join_step path seg) = segments path ++ [seg].
Proof.
  intros Hs H. unfold posixpath.join_step.
  assert (text.startswith "/" seg = false) as ->.
  { destruct seg as [|c seg]; [contradiction|]. cbn [text.startswith].
    cbn [text.all] in H. apply andb_prop in H as [H _].
    rewrite andb_true_r, Ascii.eqb_sym. by apply negb_true_iff. }
  destruct (text.is_empty path) eqn:E; cbn [orb].
  - apply is_empty_true in E. subst path. rewrite sapp_nil_l.
    by rewrite segments_single.
  - destruct (text.endswith "/" path) eqn:W.
    + apply endswith_app in W as [p' ->].
      rewrite sapp_assoc, sapp_single, !segments_app_sep.
      rewrite (segments_single seg Hs H). cbn [segments split filter].
      cbn. by rewrite app_nil_r.
    + rewrite sapp_single, segments_app_sep.
      by rewrite (segments_single seg Hs H).
Qed.

Lemma segments_rooted (p : string) : segments (rooted p) = segments p.
Proof.
  unfold rooted.
  destruct (negb (text.is_empty p) && negb (text.startswith "/" p));
    [|reflexivity].
  rewrite sapp_single.
  change (String "/" p) with (EmptyString +:+ String "/" p)%string.
  by rewrite segments_app_sep.
Qed.

Lemma quote_segment_no_slash (s : string) :
  text.all (fun a => negb (Ascii.eqb a "/"))
    (urlparse.quote s EmptyString) = true.
Proof. by apply quote_chars. Qed.

(** ** Decoding what [quote] wrote *)

Lemma unquote_quoter (c : ascii) (rest : string) :
  quoter_decodes c = true ->
  urlparse.unquote (urlparse.quoter EmptyString c +:+ rest)
  = String c (urlparse.unquote rest).
Proof.
  unfold quoter_decodes, urlparse.quoter.
  destruct ((N_of_ascii c <? 128)%N
            && (text.contains c urlparse.always_safe
                || text.contains c EmptyString)).
  - intros H. rewrite sapp_single. cbn [urlparse.unquote].
    apply negb_true_iff in H. by rewrite H.
  - unfold urlparse.percent_hex. rewrite !sapp_cons, sapp_nil_l.
    cbn [urlparse.unquote]. change (Ascii.eqb "%" "%") with true. cbn iota.
    destruct (urlparse.hex_value _) as [x|]; [|discriminate].
    destruct (urlparse.hex_value _) as [y|]; [|discriminate].
    by intros ->%Ascii.eqb_eq.
Qed.

Lemma quoter_decodes_all (c : ascii) : quoter_decodes c = true.
Proof. by_ascii_cases c. Qed.

Lemma unquote_quote (s : string) :
  urlparse.unquote (urlparse.quote s EmptyString) = s.
Proof.
  induction s as [|c s IH]; [reflexivity|]. cbn [urlparse.quote].
  by rewrite (unquote_quoter c _ (quoter_decodes_all c)), IH.
Qed.

(** ** The versioned URL of a connection *)

Lemma hostname_of_empty : urlparse.hostname EmptyString = None.
Proof. reflexivity. Qed.

(** A URL that passes validation has a netloc. *)
Lemma validate_netloc (url : string) (b : bool) :
  validate_url url = Ok b ->
  exists r, urlparse.urlsplit url = Ok r /\ urlparse.netloc r <> EmptyString.
Proof.
  unfold validate_url, urlobject.scheme, urlobject.hostname,
    urlobject.URLObject.
  destruct (urlparse.urlsplit url) as [r|e] eqn:E; [|discriminate].
  cbn. destruct (_ || _); [discriminate|].
  intros H. exists r. split; [reflexivity|]. intros N.
  rewrite N, hostname_of_empty in H. discriminate.
Qed.

(** C6, as the code has it: a connection built on [url] with a version that
    is not empty keeps [url] as [base_url], and its [api_url] is written
    from the components of [url] with the path joined with the quoted
    version.  The quoted version is one segment, not empty and without a
    slash; it decodes to the version and is the version itself when that
    has unreserved characters only.  The segments of the new path are those
    of the old one followed by it, and when [url] has a netloc, [api_url]
    parses to the components of [url] with exactly that segment more.
    With [https://x.com/] and [v1] the result is [https://x.com/v1]. *)
Theorem api_url_one_segment (n : nat) (url email token version : string)
    (conn : Connection) :
  version <> EmptyString ->
  __init__ n url email token version = Ok conn ->
  let seg := urlparse.quote version EmptyString in
  base_url conn = url
  /\ urlparse.unquote seg = version
  /\ (text.all unreserved version = true -> seg = version)
  /\ (exists r,
        urlparse.urlsplit url = Ok r
        /\ api_url conn =
             urlparse.urlunsplit
               (replace_path r (posixpath.join (urlparse.path r) [seg]))
        /\ segments (posixpath.join (urlparse.path r) [seg])
           = segments (urlparse.path r) ++ [seg]
        /\ (urlparse.netloc r <> EmptyString ->
            adds_segment (base_url conn) (api_url conn) seg))
  /\ (exists c, __init__ n "https://x.com/" email token default_version = Ok c
                /\ api_url c = "https://x.com/v1"%string).
Proof.
  intros Hv I seg.
  assert (seg <> EmptyString) as Hs.
  { intros H. by apply quote_empty in H. }
  pose proof (quote_segment_no_slash version) as Hn. fold seg in Hn.
  destruct (urlparse.urlsplit url) as [r|e] eqn:E.
  2:{ unfold __init__, urlobject.add_path_segment, urlobject.path,
        urlobject.URLObject in I.
      rewrite E in I. discriminate. }
  rewrite (init_of_urlsplit _ _ _ _ _ _ E) in I. injection I as <-.
  cbn [base_url api_url].
  split; [reflexivity|]. split; [apply unquote_quote|].
  split; [intros U; by apply quote_unreserved|].
  split; [|eexists; split; vm_compute; reflexivity].
  exists r. split; [reflexivity|]. split; [reflexivity|].
  pose proof (join_step_segments (urlparse.path r) seg Hs Hn) as J.
  split; [exact J|].
  intros Hnet. pose proof (urlsplit_components _ _ E) as C.
  exists r, (replace_path r (rooted (posixpath.join (urlparse.path r) [seg]))).
  split; [exact E|]. split.
  { apply (urlsplit_urlunsplit
             (replace_path r (posixpath.join (urlparse.path r) [seg])));
      [|exact Hnet].
    apply components_ok_replace; [exact C|].
    apply join_step_chars; [reflexivity|by apply components_ok_path|].
    by apply path_char_quote. }
  unfold replace_path.
  cbn [urlparse.scheme urlparse.netloc urlparse.path urlparse.query
       urlparse.fragment].
  repeat split. rewrite segments_rooted. exact J.
Qed.

Lemma api_url_one_segment_witness :
  adds_segment "https://x.com/" "https://x.com/v1" "v1".
Proof.
  destruct (api_url_one_segment 0 "https://x.com/" "a@b.com" "t" "v1"
              example_conn)
    as (_ & _ & _ & (r & E & _ & _ & H) & _).
  - discriminate.
  - vm_compute. reflexivity.
  - apply H. vm_compute in E. injection E as <-. discriminate.
Defined.

(** With an empty version nothing is added: on [https://x.com/] the
    [api_url] is the [base_url], which is not itself with one segment
    more. *)
Lemma api_url_empty_version :
  exists conn,
    __init__ 0 "https://x.com/" "a@b.com" "t" EmptyString = Ok conn
    /\ api_url conn = base_url conn
    /\ ~ adds_segment (base_url conn) (api_url conn) EmptyString.
Proof.
  eexists. split; [vm_compute; reflexivity|]. split; [reflexivity|].
  cbn [base_url api_url]. intros (r & r' & E & E' & _ & _ & _ & _ & H).
  rewrite E in E'. injection E' as <-.
  apply (f_equal (@length string)) in H. rewrite length_app in H.
  cbn in H. lia.
Qed.

(** * Validation *)

(** What [validate_url] does on a URL that parses: the three tests in
    order, the last one on the whole text of the URL. *)
Lemma validate_url_cases (url : string) (r : urlparse.SplitResult) :
  urlparse.urlsplit url = Ok r ->
  validate_url url =
    if text.is_empty (urlparse.scheme r)
       || negb (urlparse.in_list (urlparse.scheme r) ["http"; "https"]%string)
    then Raise (MisconfiguredError (scheme_message url))
    else if falsy (urlparse.hostname (urlparse.netloc r))
    then Raise (MisconfiguredError (hostname_message url))
    else if re.search re.match_version url
    then Raise (MisconfiguredError (version_message url))
    else Ok true.
Proof.
  intros E. unfold validate_url, urlobject.scheme, urlobject.hostname,
    urlobject.URLObject.
  rewrite E. reflexivity.
Qed.

(** X16: [validate_url] accepts exactly the URLs with scheme [http] or
    [https], a hostname, and no [/v] followed by a digit anywhere in their
    text. *)
Lemma validate_url_ok_iff (url : string) (r : urlparse.SplitResult) :
  urlparse.urlsplit url = Ok r ->
  validate_url url = Ok true
  <-> (urlparse.scheme r = "http"%string \/ urlparse.scheme r = "https"%string)
      /\ falsy (urlparse.hostname (urlparse.netloc r)) = false
      /\ re.search re.match_version url = false.
Proof.
  intros E. rewrite (validate_url_cases _ _ E).
  assert (text.is_empty (urlparse.scheme r)
          || negb (urlparse.in_list (urlparse.scheme r) ["http"; "https"]%string)
          = false
          <-> urlparse.scheme r = "http"%string
              \/ urlparse.scheme r = "https"%string) as S.
  { unfold urlparse.in_list. cbn [existsb]. rewrite orb_false_r. split.
    - intros [_ H]%orb_false_elim. apply negb_false_iff in H.
      apply orb_prop in H as [H|H]; apply String.eqb_eq in H; auto.
    - intros [-> | ->]; reflexivity. }
  destruct (_ || negb _).
  - split; [discriminate|]. intros [H _]. apply S in H. discriminate.
  - destruct (falsy _); [split; [discriminate|by intros (_ & ? & _)]|].
    destruct (re.search _ _); [split; [discriminate|by intros (_ & _ & ?)]|].
    split; [|reflexivity]. intros _. split; [by apply S|by split].
Qed.

(** The four URLs that the description of [validate_url] names. *)
Lemma validate_url_examples :
  validate_url "https://api.example.com/developer_api/" = Ok true
  /\ validate_url "api.example.com"
     = Raise (MisconfiguredError (scheme_message "api.example.com"))
  /\ validate_url "https:///path"
     = Raise (MisconfiguredError (hostname_message "https:///path"))
  /\ validate_url "https://api.example.com/v2/"
     = Raise (MisconfiguredError
                (version_message "https://api.example.com/v2/")).
Proof. repeat split; vm_compute; reflexivity. Qed.

(** C3: the test for a version looks at the whole URL and not at its path.
    A URL with scheme [https], a hostname and the path [/], in which no
    [/v] followed by a digit occurs, is rejected as having a version path
    segment because its query holds [/v2]. *)
Theorem validate_url_version_in_query :
  let url := "https://api.example.com/?next=/v2"%string in
  urlobject.scheme url = Ok "https"%string
  /\ urlobject.hostname url = Ok (Some "api.example.com"%string)
  /\ urlobject.path url = Ok "/"%string
  /\ re.search re.match_version "/" = false
  /\ validate_url url = Raise (MisconfiguredError (version_message url)).
Proof. repeat split; vm_compute; reflexivity. Qed.

(** [validate_url] on a text that [urlsplit] refuses raises the
    [ValueError] of [urlsplit]. *)
Lemma validate_url_unparsed :
  validate_url "https://[api.example.com/"
  = Raise (ValueError "Invalid IPv6 URL").
Proof. vm_compute. reflexivity. Qed.

(** * Instances of the statements above *)

Lemma example_state_lookup :
  _connections example_state !! default_name = Some example_conn.
Proof. apply lookup_singleton_eq. Qed.

Lemma connect_duplicate_witness :
  connect "c@d.org" "u" "https://y.org/" "default" example_state =
    (Raise (ValueError (duplicate_message "default" example_conn)),
     example_state)
  /\ includes "a@b.com" (duplicate_message "default" example_conn)
  /\ get "default"
       (snd (connect "c@d.org" "u" "https://y.org/" "default" example_state))
     = Ok example_conn.
Proof.
  apply (connect_duplicate "c@d.org" "u" "https://y.org/" "default"
           example_state example_conn).
  apply example_state_lookup.
Defined.

Lemma connect_duplicate_before_validation_witness :
  validate_url "api.example.com"
  = Raise (MisconfiguredError (scheme_message "api.example.com"))
  /\ fst (connect "c@d.org" "u" "api.example.com" "default" example_state)
     = Raise (ValueError (duplicate_message "default" example_conn))
  /\ (forall msg,
        fst (connect "c@d.org" "u" "api.example.com" "default" example_state)
        <> Raise (MisconfiguredError msg))
  /\ snd (connect "c@d.org" "u" "api.example.com" "default" example_state)
     = example_state.
Proof.
  split; [vm_compute; reflexivity|].
  apply (connect_duplicate_before_validation "c@d.org" "u" "api.example.com"
           "default" example_state example_conn).
  apply example_state_lookup.
Defined.

Lemma get_unregistered_witness :
  get "default" initial
  = Raise (MisconfiguredError
             "There is no default connection. First try prospyr.connect(...)")
  /\ get "backup" example_state
     = Raise (MisconfiguredError (no_such_message "backup")).
Proof.
  split.
  - apply (get_unregistered "default" initial); [apply lookup_empty|reflexivity].
  - apply (get_unregistered "backup" example_state).
    + apply lookup_singleton_ne. discriminate.
    + discriminate.
Defined.

Lemma verb_dispatch_witness :
  exists f,
    __getattr__ example_conn "get" = Ok f
    /\ call (PyVal := string) (Response := string) f
         "https://x.com/v1/widgets" [] []
       = SessionCall (session example_conn) "get"
           "https://x.com/v1/widgets" [] [] Return.
Proof.
  destruct (verb_dispatch string string example_conn "get"
              "https://x.com/v1/widgets" [] [])
    as [(f & H1 & H2 & H3) _].
  - cbn. auto.
  - exists f. split; [exact H1|]. by rewrite H2.
Defined.

Lemma session_headers_witness :
  requests.header_get "x-pw-useremail" (requests.headers (session example_conn))
  = Some "a@b.com"%string.
Proof.
  destruct (session_headers "a@b.com" "t") as (_ & _ & H & _).
  exact H.
Defined.

(** * More on the registry *)

Lemma validate_url_true (url : string) (b : bool) :
  validate_url url = Ok b -> b = true.
Proof.
  unfold validate_url.
  destruct (urlobject.scheme _) as [sc|]; [|discriminate]. cbn.
  destruct (_ || _); [discriminate|].
  destruct (urlobject.hostname _) as [h|]; [|discriminate]. cbn.
  destruct (falsy h); [discriminate|].
  destruct (re.search _ _); [discriminate|]. by intros [= <-].
Qed.

(** The URL written with one more segment parses to the old components and
    that segment more. *)
Lemma adds_segment_built (url seg : string) (r : urlparse.SplitResult) :
  urlparse.urlsplit url = Ok r ->
  urlparse.netloc r <> EmptyString ->
  seg <> EmptyString ->
  text.all (fun a => negb (Ascii.eqb a "/")) seg = true ->
  text.all path_char seg = true ->
  adds_segment url
    (urlparse.urlunsplit
       (replace_path r (posixpath.join_step (urlparse.path r) seg)))
    seg.
Proof.
  intros E Hn Hs Hslash Hp.
  pose proof (urlsplit_components _ _ E) as C.
  exists r, (replace_path r (rooted (posixpath.join_step (urlparse.path r) seg))).
  split; [exact E|]. split.
  { apply (urlsplit_urlunsplit
             (replace_path r (posixpath.join_step (urlparse.path r) seg)));
      [|exact Hn].
    apply components_ok_replace; [exact C|].
    apply join_step_chars; [reflexivity|by apply components_ok_path|exact Hp]. }
  unfold replace_path.
  cbn [urlparse.scheme urlparse.netloc urlparse.path urlparse.query
       urlparse.fragment].
  repeat split. rewrite segments_rooted. by apply join_step_segments.
Qed.

(** What a successful [connect] did. *)
Lemma connect_success (email token url name : string) (st st' : State)
    (conn : Connection) :
  connect email token url name st = (Ok conn, st') ->
  _connections st !! name = None
  /\ validate_url url = Ok true
  /\ (exists r,
        urlparse.urlsplit url = Ok r
        /\ urlparse.netloc r <> EmptyString
        /\ conn = mkConnection (next_oid st) (_get_session email token) email
                    url
                    (urlparse.urlunsplit
                       (replace_path r
                          (posixpath.join_step (urlparse.path r) "v1"))))
  /\ st' = mkState (<[name := conn]> (_connections st)) (S (next_oid st)).
Proof.
  unfold connect.
  destruct (_connections st !! name); [discriminate|].
  destruct (validate_url url) as [b|e] eqn:V; [|discriminate].
  pose proof (validate_url_true _ _ V) as ->.
  destruct (validate_netloc _ _ V) as (r & E & Hn).
  rewrite (init_of_urlsplit _ _ _ _ _ _ E).
  intros [= <- <-]. split; [reflexivity|]. split; [reflexivity|].
  split; [|reflexivity]. exists r. by split.
Qed.

Lemma registered_ok_connect (email token url name : string) (st st' : State)
    (conn : Connection) :
  connect email token url name st = (Ok conn, st') -> registered_ok conn.
Proof.
  intros (_ & V & (r & E & Hn & ->) & _)%connect_success.
  unfold registered_ok. cbn [base_url api_url session connection.email].
  split; [exact V|]. split; [|by exists token].
  by apply (adds_segment_built url "v1" r E Hn).
Qed.

Lemma connect_raise_unchanged_aux (email token url name : string) (st : State) :
  match fst (connect email token url name st) with
  | Raise _ => snd (connect email token url name st) = st
  | Ok _ => True
  end.
Proof.
  unfold connect.
  destruct (_connections st !! name); [reflexivity|].
  destruct (validate_url url); [|reflexivity].
  by destruct (__init__ _ _ _ _ _).
Qed.

Lemma connect_keeps_entry (email token url name k : string) (st : State)
    (c : Connection) :
  _connections st !! k = Some c ->
  _connections (snd (connect email token url name st)) !! k = Some c.
Proof.
  intros L. unfold connect.
  destruct (_connections st !! name) eqn:N; [exact L|].
  destruct (validate_url url); [|exact L].
  destruct (__init__ _ _ _ _ _); [|exact L].
  cbn. rewrite lookup_insert_ne; [exact L|]. intros ->. congruence.
Qed.

(** X1: calls of [connect] never remove or replace an entry: whatever
    they are called with and whatever they return, a name that is
    registered stays registered to the same instance through any sequence
    of later calls. *)
Theorem connect_all_keeps_entries
    (calls : list (string * string * string * string)) (k : string)
    (st : State) (c : Connection) :
  _connections st !! k = Some c ->
  _connections (connect_all calls st) !! k = Some c.
Proof.
  revert st. induction calls as [|[[[email token] url] name] calls IH];
    intros st L; [exact L|].
  cbn [connect_all fold_left]. apply IH. by apply connect_keeps_entry.
Qed.

Lemma connect_all_keeps_entries_witness :
  _connections
    (connect_all
       [ ("c@d.org", "u", "https://y.org/", "default");
         ("e@f.net", "w", "https://z.net/", "backup") ]%string
       example_state)
    !! default_name = Some example_conn.
Proof.
  apply (connect_all_keeps_entries
           [ ("c@d.org", "u", "https://y.org/", "default");
             ("e@f.net", "w", "https://z.net/", "backup") ]%string
           default_name example_state example_conn).
  apply example_state_lookup.
Defined.

(** X2: a call of [connect] that raises, for whatever reason, leaves the
    state as it was. *)
Theorem connect_raise_unchanged (email token url name : string) (st : State)
    (e : exn) :
  fst (connect email token url name st) = Raise e ->
  snd (connect email token url name st) = st.
Proof.
  unfold connect.
  destruct (_connections st !! name); [reflexivity|].
  destruct (validate_url url); [|reflexivity].
  destruct (__init__ _ _ _ _ _); [discriminate|reflexivity].
Qed.

Lemma connect_raise_unchanged_witness :
  snd (connect "a@b.com" "t" "https://api.example.com/v2/" "default" initial)
  = initial.
Proof.
  apply (connect_raise_unchanged "a@b.com" "t" "https://api.example.com/v2/"
           "default" initial
           (MisconfiguredError (version_message "https://api.example.com/v2/"))).
  vm_compute. reflexivity.
Defined.

(** X3: on a free name the outcome of [connect] is the outcome of
    [validate_url]: it returns an instance exactly when the URL is
    accepted, and otherwise raises the very exception of [validate_url]
    and registers nothing, so that [get] on the name still fails. *)
Theorem connect_follows_validation (email token url name : string)
    (st : State) :
  _connections st !! name = None ->
  ((exists conn st', connect email token url name st = (Ok conn, st'))
     <-> validate_url url = Ok true)
  /\ (forall e, validate_url url = Raise e ->
        connect email token url name st = (Raise e, st)
        /\ exists msg, get name st = Raise (MisconfiguredError msg)).
Proof.
  intros L. split; [split|].
  - intros (conn & st' & C). by apply connect_success in C as (_ & V & _).
  - intros V. destruct (urlsplit_of_validate _ _ V) as [r E].
    unfold connect. rewrite L, V, (init_of_urlsplit _ _ _ _ _ _ E). eauto.
  - intros e V. unfold connect, get. rewrite L, V. eauto.
Qed.

Lemma connect_follows_validation_witness :
  connect "a@b.com" "t" "api.example.com" "default" initial
  = (Raise (MisconfiguredError (scheme_message "api.example.com")), initial).
Proof.
  destruct (connect_follows_validation "a@b.com" "t" "api.example.com"
              "default" initial) as [_ H].
  - apply lookup_empty.
  - apply H. vm_compute. reflexivity.
Defined.

(** X4: the default URL passes validation: with the default URL and a
    free name, [connect] succeeds for every email and token, and the
    instance has the versioned URL of the default endpoint. *)
Theorem connect_default_url (email token name : string) (st : State) :
  _connections st !! name = None ->
  exists conn st',
    connect email token _default_url name st = (Ok conn, st')
    /\ base_url conn = "https://api.prosperworks.com/developer_api/"%string
    /\ api_url conn = "https://api.prosperworks.com/developer_api/v1"%string
    /\ connection.email conn = email.
Proof.
  intros L. unfold connect. rewrite L.
  assert (validate_url _default_url = Ok true) as -> by (vm_compute; reflexivity).
  assert (exists r, urlparse.urlsplit _default_url = Ok r) as [r E]
    by (eexists; vm_compute; reflexivity).
  rewrite (init_of_urlsplit _ _ _ _ _ _ E).
  eexists _, _. split; [reflexivity|]. cbn [base_url api_url connection.email].
  split; [reflexivity|]. split; [|reflexivity].
  vm_compute in E. injection E as <-. vm_compute. reflexivity.
Qed.

Lemma connect_default_url_witness :
  exists conn st',
    connect "a@b.com" "t" _default_url default_name initial = (Ok conn, st')
    /\ base_url conn = "https://api.prosperworks.com/developer_api/"%string
    /\ api_url conn = "https://api.prosperworks.com/developer_api/v1"%string
    /\ connection.email conn = "a@b.com"%string.
Proof.
  apply (connect_default_url "a@b.com" "t" default_name initial).
  apply lookup_empty.
Defined.

Lemma get_session_credentials (email token : string) :
  requests.header_get "X-PW-AccessToken"
    (requests.headers (_get_session email token)) = Some token
  /\ requests.header_get "X-PW-UserEmail"
       (requests.headers (_get_session email token)) = Some email.
Proof. split; vm_compute; reflexivity. Qed.

(** X5: the instance that a successful [connect] returns, and that [get]
    then finds under the name, carries what the call was given: the email,
    the URL as [base_url], the URL with the segment [v1] more as [api_url],
    and a session whose headers hold the token and the email. *)
Theorem connect_result (email token url name : string) (st st' : State)
    (conn : Connection) :
  connect email token url name st = (Ok conn, st') ->
  get name st' = Ok conn
  /\ connection.email conn = email
  /\ base_url conn = url
  /\ adds_segment url (api_url conn) "v1"
  /\ requests.header_get "X-PW-AccessToken" (requests.headers (session conn))
     = Some token
  /\ requests.header_get "X-PW-UserEmail" (requests.headers (session conn))
     = Some email.
Proof.
  intros C. pose proof (registered_ok_connect _ _ _ _ _ _ _ C) as (_ & A & _).
  apply connect_success in C as (_ & _ & (r & E & Hn & ->) & ->).
  cbn [base_url api_url session connection.email] in *.
  split; [unfold get; cbn; by rewrite lookup_insert_eq|].
  split; [reflexivity|]. split; [reflexivity|]. split; [exact A|].
  apply get_session_credentials.
Qed.

Lemma connect_result_witness :
  exists conn st',
    connect "a@b.com" "t" "https://x.com/" "default" initial = (Ok conn, st')
    /\ get "default" st' = Ok conn
    /\ adds_segment "https://x.com/" (api_url conn) "v1".
Proof.
  eexists _, _. split; [vm_compute; reflexivity|].
  match goal with
  | |- get _ ?s = Ok ?c /\ _ =>
      destruct (connect_result "a@b.com" "t" "https://x.com/" "default"
                  initial s c) as (H1 & _ & _ & H2 & _)
  end.
  - vm_compute. reflexivity.
  - split; [exact H1|exact H2].
Defined.

(** X7: [connect] under one name does not change what [get] returns for
    another name, whether that name is registered or not. *)
Theorem connect_get_other (email token url name other : string) (st : State) :
  other <> name ->
  get other (snd (connect email token url name st)) = get other st.
Proof.
  intros Hne. unfold connect.
  destruct (_connections st !! name); [reflexivity|].
  destruct (validate_url url); [|reflexivity].
  destruct (__init__ _ _ _ _ _); [|reflexivity].
  unfold get. cbn. by rewrite lookup_insert_ne.
Qed.

Lemma connect_get_other_witness :
  get "default"
    (snd (connect "c@d.org" "u" "https://y.org/" "backup" example_state))
  = Ok example_conn.
Proof.
  rewrite (connect_get_other "c@d.org" "u" "https://y.org/" "backup"
             "default" example_state).
  - vm_compute. reflexivity.
  - discriminate.
Defined.

(** ** The states that calls of [connect] reach *)

Lemma connect_keeps_distinct (email token url name : string) (st : State) :
  registry_wf st -> distinct_instances st ->
  distinct_instances (snd (connect email token url name st)).
Proof.
  intros W D.
  destruct (connect email token url name st) as [[conn|e] st'] eqn:C.
  2:{ pose proof (connect_raise_unchanged_aux email token url name st) as U.
      rewrite C in U. cbn in *. by rewrite U. }
  pose proof (connect_oid _ _ _ _ _ _ _ C) as O.
  apply connect_success in C as (_ & _ & _ & ->). cbn.
  intros k1 k2 c1 c2. cbn. rewrite !lookup_insert.
  repeat case_decide; subst; intros H1 H2 Ho; simplify_eq; try done.
  - apply W in H2. lia.
  - apply W in H1. lia.
  - by apply (D k1 k2 c1 c2).
Qed.

Lemma connect_keeps_registered_ok (email token url name : string) (st : State) :
  (forall k c, _connections st !! k = Some c -> registered_ok c) ->
  forall k c,
    _connections (snd (connect email token url name st)) !! k = Some c ->
    registered_ok c.
Proof.
  intros R.
  destruct (connect email token url name st) as [[conn|e] st'] eqn:C.
  2:{ pose proof (connect_raise_unchanged_aux email token url name st) as U.
      rewrite C in U. cbn in *. by rewrite U. }
  pose proof (registered_ok_connect _ _ _ _ _ _ _ C) as Rc.
  apply connect_success in C as (_ & _ & _ & ->). cbn.
  intros k c. rewrite lookup_insert. case_decide.
  - by intros [= <-].
  - apply R.
Qed.

Lemma connect_all_invariant
    (calls : list (string * string * string * string)) (st : State) :
  registry_wf st -> distinct_instances st ->
  (forall k c, _connections st !! k = Some c -> registered_ok c) ->
  registry_wf (connect_all calls st)
  /\ distinct_instances (connect_all calls st)
  /\ (forall k c,
        _connections (connect_all calls st) !! k = Some c -> registered_ok c).
Proof.
  revert st. induction calls as [|[[[email token] url] name] calls IH];
    intros st W D R; [by auto|].
  cbn [connect_all fold_left]. apply IH.
  - by apply connect_preserves_wf.
  - by apply connect_keeps_distinct.
  - by apply connect_keeps_registered_ok.
Qed.

(** X6: after any sequence of calls of [connect] from the empty registry,
    whatever their arguments and outcomes, no instance is registered under
    two names. *)
Theorem registry_distinct_instances
    (calls : list (string * string * string * string)) :
  distinct_instances (connect_all calls initial).
Proof.
  apply connect_all_invariant.
  - apply registry_wf_initial.
  - intros k1 k2 c1 c2 H. cbn in H. by rewrite lookup_empty in H.
  - intros k c H. cbn in H. by rewrite lookup_empty in H.
Qed.

(** X8: after any sequence of calls of [connect] from the empty registry,
    every registered instance has a [base_url] that [validate_url]
    accepts, an [api_url] that is the [base_url] with the segment [v1]
    more, and a session built from its own email. *)
Theorem registry_entries_validated
    (calls : list (string * string * string * string)) (k : string)
    (c : Connection) :
  _connections (connect_all calls initial) !! k = Some c ->
  validate_url (base_url c) = Ok true
  /\ adds_segment (base_url c) (api_url c) "v1"
  /\ requests.header_get "X-PW-UserEmail" (requests.headers (session c))
     = Some (connection.email c).
Proof.
  intros L.
  assert (registered_ok c) as (V & A & token & S).
  { revert k c L. apply connect_all_invariant.
    - apply registry_wf_initial.
    - intros k1 k2 c1 c2 H. cbn in H. by rewrite lookup_empty in H.
    - intros k c H. cbn in H. by rewrite lookup_empty in H. }
  split; [exact V|]. split; [exact A|].
  rewrite S. apply get_session_credentials.
Qed.

Lemma registry_entries_validated_witness :
  exists c,
    _connections
      (connect_all
         [ ("a@b.com", "t", "https://x.com/", "default");
           ("c@d.org", "u", "api.example.com", "backup");
           ("e@f.net", "w", "https://y.org/", "default") ]%string
         initial) !! default_name = Some c
    /\ validate_url (base_url c) = Ok true
    /\ connection.email c = "a@b.com"%string.
Proof.
  eexists. split; [vm_compute; reflexivity|].
  match goal with
  | |- validate_url (base_url ?c) = _ /\ _ =>
      destruct (registry_entries_validated
                  [ ("a@b.com", "t", "https://x.com/", "default");
                    ("c@d.org", "u", "api.example.com", "backup");
                    ("e@f.net", "w", "https://y.org/", "default") ]%string
                  default_name c) as (V & _)
  end.
  - vm_compute. reflexivity.
  - split; [exact V|reflexivity].
Defined.

Lemma registry_distinct_instances_witness :
  exists c1 c2,
    _connections
      (connect_all
         [ ("a@b.com", "t", "https://x.com/", "default");
           ("c@d.org", "u", "https://y.org/", "backup") ]%string
         initial) !! "default"%string = Some c1
    /\ _connections
         (connect_all
            [ ("a@b.com", "t", "https://x.com/", "default");
              ("c@d.org", "u", "https://y.org/", "backup") ]%string
            initial) !! "backup"%string = Some c2
    /\ oid c1 <> oid c2.
Proof.
  eexists _, _. split; [vm_compute; reflexivity|].
  split; [vm_compute; reflexivity|].
  intros Ho.
  match type of Ho with
  | oid ?c1 = oid ?c2 =>
      pose proof (registry_distinct_instances
                    [ ("a@b.com", "t", "https://x.com/", "default");
                      ("c@d.org", "u", "https://y.org/", "backup") ]%string
                    "default"%string "backup"%string c1 c2) as D
  end.
  assert ("default"%string = "backup"%string) as E.
  { apply D; [vm_compute; reflexivity|vm_compute; reflexivity|exact Ho]. }
  discriminate E.
Defined.

(** * More on validation *)



Lemma validate_url_ok_iff_witness :
  validate_url "http://u:p@Api.Example.com:8080/developer_api/?a=b#c"
  = Ok true.
Proof.
  eapply validate_url_ok_iff.
  - vm_compute. reflexivity.
  - split; [by left|]. split; vm_compute; reflexivity.
Defined.

(** * More on joining *)

Lemma join_step_absolute (a b : string) :
  text.startswith "/" b = true -> posixpath.join_step a b = b.
Proof. intros H. unfold posixpath.join_step. by rewrite H. Qed.

Lemma segments_empty : segments EmptyString = [].
Proof. reflexivity. Qed.

(** Joining a relative path adds its segments to those of the base. *)
Lemma join_step_relative_segments (a b : string) :
  text.startswith "/" b = false ->
  segments (posixpath.join_step a b) = segments a ++ segments b.
Proof.
  intros H. unfold posixpath.join_step. rewrite H.
  destruct (text.is_empty a) eqn:E; cbn [orb].
  - apply is_empty_true in E. subst a. by rewrite sapp_nil_l.
  - destruct (text.endswith "/" a) eqn:W.
    + apply endswith_app in W as [a' ->].
      rewrite sapp_assoc, sapp_single, !segments_app_sep.
      by rewrite segments_empty, app_nil_r.
    + by rewrite sapp_single, segments_app_sep.
Qed.

Lemma split_prefix (c : ascii) (w x : string) :
  text.all (fun a => negb (Ascii.eqb a c)) w = true ->
  split c (w +:+ x) =
    match split c x with
    | h :: t => (w +:+ h)%string :: t
    | [] => [w]
    end.
Proof.
  induction w as [|a w IH]; intros H.
  - rewrite sapp_nil_l. pose proof (split_nonempty c x) as N.
    destruct (split c x); [contradiction|reflexivity].
  - cbn [text.all] in H. apply andb_prop in H as [Ha Hw].
    apply negb_true_iff in Ha. rewrite sapp_cons. cbn [split].
    rewrite Ha, (IH Hw).
    pose proof (split_nonempty c x) as N.
    destruct (split c x) as [|h t]; [contradiction|]. by rewrite sapp_cons.
Qed.

Lemma quoter_slash_free_all (c : ascii) : quoter_slash_free c = true.
Proof. by_ascii_cases c. Qed.

Lemma quoter_slash_decodes_all (c : ascii) : quoter_slash_decodes c = true.
Proof. by_ascii_cases c. Qed.

(** Quoting with the slash kept quotes each piece between slashes. *)
Lemma split_quote (p : string) :
  split "/" (urlparse.quote p "/")
  = List.map (fun s => urlparse.quote s "/") (split "/" p).
Proof.
  induction p as [|c p IH]; [reflexivity|].
  cbn [urlparse.quote split].
  destruct (Ascii.eqb c "/") eqn:E.
  - apply Ascii.eqb_eq in E. subst c.
    change (urlparse.quoter "/" "/") with (String "/" EmptyString).
    rewrite sapp_single. cbn [split]. rewrite Ascii.eqb_refl, IH. reflexivity.
  - pose proof (quoter_slash_free_all c) as F. unfold quoter_slash_free in F.
    rewrite E in F. cbn [orb] in F.
    rewrite (split_prefix "/" _ _ F), IH.
    pose proof (split_nonempty "/" p) as N.
    destruct (split "/" p) as [|h t]; [contradiction|]. reflexivity.
Qed.

Lemma unquote_quoter_slash (c : ascii) (rest : string) :
  urlparse.unquote (urlparse.quoter "/" c +:+ rest)
  = String c (urlparse.unquote rest).
Proof.
  pose proof (quoter_slash_decodes_all c) as D. revert D.
  unfold quoter_slash_decodes, urlparse.quoter.
  destruct ((N_of_ascii c <? 128)%N
            && (text.contains c urlparse.always_safe || text.contains c "/")).
  - intros H. rewrite sapp_single. cbn [urlparse.unquote].
    apply negb_true_iff in H. by rewrite H.
  - unfold urlparse.percent_hex. rewrite !sapp_cons, sapp_nil_l.
    cbn [urlparse.unquote]. change (Ascii.eqb "%" "%") with true. cbn iota.
    destruct (urlparse.hex_value _) as [x|]; [|discriminate].
    destruct (urlparse.hex_value _) as [y|]; [|discriminate].
    by intros ->%Ascii.eqb_eq.
Qed.

Lemma unquote_quote_slash (s : string) :
  urlparse.unquote (urlparse.quote s "/") = s.
Proof.
  induction s as [|c s IH]; [reflexivity|]. cbn [urlparse.quote].
  by rewrite unquote_quoter_slash, IH.
Qed.

(** The decoded segments of a quoted path are the segments of the path. *)
Lemma decoded_segments_quote (p : string) :
  decoded_segments (urlparse.quote p "/") = segments p.
Proof.
  unfold decoded_segments, segments. rewrite split_quote.
  induction (split "/" p) as [|s l IH]; [reflexivity|].
  cbn [List.map List.filter].
  destruct s as [|c s].
  - cbn. exact IH.
  - destruct (urlparse.quote (String c s) "/") as [|c' s'] eqn:Q.
    + apply quote_empty in Q. discriminate.
    + cbn [text.is_empty negb List.map]. rewrite <- Q, unquote_quote_slash.
      f_equal. exact IH.
Qed.

(** [add_path] on a URL with a netloc: the result parses, to the old
    components and to the path that joining gives. *)
Lemma add_path_parsed (url p : string) (r : urlparse.SplitResult) :
  urlparse.urlsplit url = Ok r ->
  urlparse.netloc r <> EmptyString ->
  exists u r',
    urlobject.add_path url p = Ok u
    /\ urlparse.urlsplit u = Ok r'
    /\ urlparse.scheme r' = urlparse.scheme r
    /\ urlparse.netloc r' = urlparse.netloc r
    /\ urlparse.query r' = urlparse.query r
    /\ urlparse.fragment r' = urlparse.fragment r
    /\ segments (urlparse.path r')
       = (if text.startswith "/" p then [] else segments (urlparse.path r))
         ++ segments (urlparse.quote p "/")
    /\ decoded_segments (urlparse.path r')
       = (if text.startswith "/" p then []
          else decoded_segments (urlparse.path r))
         ++ segments p.
Proof.
  intros E Hn. pose proof (urlsplit_components _ _ E) as C.
  set (j := posixpath.join_step (urlparse.path r) (urlparse.quote p "/")).
  exists (urlparse.urlunsplit (replace_path r j)), (replace_path r (rooted j)).
  split; [by apply add_path_spec|]. split.
  { apply (urlsplit_urlunsplit (replace_path r j)); [|exact Hn].
    apply components_ok_replace; [exact C|].
    apply join_step_chars; [reflexivity|by apply components_ok_path|].
    by apply path_char_quote. }
  unfold replace_path.
  cbn [urlparse.scheme urlparse.netloc urlparse.path urlparse.query
       urlparse.fragment].
  do 4 (split; [reflexivity|]).
  assert (segments (rooted j)
          = (if text.startswith "/" p then [] else segments (urlparse.path r))
            ++ segments (urlparse.quote p "/")) as S.
  { rewrite segments_rooted. unfold j.
    pose proof (startswith_quote p) as Q.
    destruct (text.startswith "/" p).
    - by rewrite (join_step_absolute _ _ Q).
    - by apply join_step_relative_segments. }
  split; [exact S|].
  unfold decoded_segments at 1. rewrite S, List.map_app.
  change (List.map urlparse.unquote (segments (urlparse.quote p "/")))
    with (decoded_segments (urlparse.quote p "/")).
  rewrite decoded_segments_quote. by destruct (text.startswith "/" p).
Qed.

(** X10: on a base that parses and has a netloc, [url_join] with a first
    segment [p] returns a URL that parses to the scheme, netloc, query and
    fragment of the base; its decoded path segments are those of the base
    followed by the segments of [p], or the segments of [p] alone when [p]
    begins with a slash.  Further segments change nothing. *)
Theorem url_join_segments (base p : string) (rest : list string)
    (r : urlparse.SplitResult) :
  urlparse.urlsplit base = Ok r ->
  urlparse.netloc r <> EmptyString ->
  exists u r',
    url_join base (p :: rest) = Ok u
    /\ urlparse.urlsplit u = Ok r'
    /\ urlparse.scheme r' = urlparse.scheme r
    /\ urlparse.netloc r' = urlparse.netloc r
    /\ urlparse.query r' = urlparse.query r
    /\ urlparse.fragment r' = urlparse.fragment r
    /\ decoded_segments (urlparse.path r')
       = (if text.startswith "/" p then []
          else decoded_segments (urlparse.path r))
         ++ segments p.
Proof.
  intros E Hn.
  destruct (add_path_parsed base p r E Hn)
    as (u & r' & A & P & H1 & H2 & H3 & H4 & _ & H6).
  exists u, r'. unfold url_join, urlobject.URLObject, urlobject.URLPath.
  by repeat split.
Qed.

Lemma url_join_segments_witness :
  exists u r',
    url_join "https://api.example.com/a%20b/v1?k=1" ["c d/e"; "ignored"]%string
    = Ok u
    /\ urlparse.urlsplit u = Ok r'
    /\ decoded_segments (urlparse.path r') = ["a b"; "v1"; "c d"; "e"]%string.
Proof.
  destruct (url_join_segments "https://api.example.com/a%20b/v1?k=1" "c d/e"
              ["ignored"%string]
              (urlparse.mkSplitResult "https" "api.example.com" "/a%20b/v1"
                 "k=1" EmptyString))
    as (u & r' & J & P & _ & _ & _ & _ & S).
  - vm_compute. reflexivity.
  - discriminate.
  - exists u, r'. split; [exact J|]. split; [exact P|]. exact S.
Defined.

Lemma search_app_r (m : string -> bool) (a b : string) :
  re.search m b = true -> re.search m (a +:+ b) = true.
Proof.
  intros H. induction a as [|c a IH]; [exact H|].
  rewrite sapp_cons. cbn [re.search]. rewrite IH. apply orb_true_r.
Qed.

Lemma search_version_v1 (a b : string) :
  re.search re.match_version (a +:+ "/v1" +:+ b) = true.
Proof.
  apply search_app_r. rewrite !sapp_cons, sapp_nil_l.
  destruct b; reflexivity.
Qed.

Lemma rooted_join_v1 (a : string) :
  exists x, rooted (posixpath.join_step a "v1") = (x +:+ "/v1")%string.
Proof.
  unfold posixpath.join_step.
  change (text.startswith "/" "v1") with false. cbn iota.
  destruct (text.is_empty a) eqn:E; cbn [orb].
  - apply is_empty_true in E. subst a. by exists EmptyString.
  - assert (exists y, (if text.endswith "/" a then a +:+ "v1"
                       else a +:+ "/" +:+ "v1")%string
                      = (y +:+ "/v1")%string) as [y ->].
    { destruct (text.endswith "/" a) eqn:W.
      - apply endswith_app in W as [a' ->]. exists a'.
        by rewrite sapp_assoc.
      - by exists a. }
    unfold rooted. destruct (_ && _).
    + exists ("/" +:+ y)%string. by rewrite sapp_assoc.
    + by exists y.
Qed.

(** X11: the [api_url] of an instance that [connect] returned is itself
    refused by [validate_url], with the message on the version segment:
    it cannot serve as the URL of another [connect]. *)
Theorem api_url_not_valid (email token url name : string) (st st' : State)
    (conn : Connection) :
  connect email token url name st = (Ok conn, st') ->
  validate_url (api_url conn)
  = Raise (MisconfiguredError (version_message (api_url conn))).
Proof.
  intros (_ & V & (r & E & Hn & ->) & _)%connect_success.
  cbn [api_url].
  set (j := posixpath.join_step (urlparse.path r) "v1").
  pose proof (urlsplit_components _ _ E) as C.
  assert (urlparse.urlsplit (urlparse.urlunsplit (replace_path r j))
          = Ok (replace_path r (rooted j))) as P.
  { apply (urlsplit_urlunsplit (replace_path r j)); [|exact Hn].
    apply components_ok_replace; [exact C|].
    apply join_step_chars; [reflexivity|by apply components_ok_path|reflexivity]. }
  assert (re.search re.match_version (urlparse.urlunsplit (replace_path r j))
          = true) as S.
  { rewrite (urlunsplit_netloc (replace_path r j) Hn).
    unfold replace_path. cbn [urlparse.scheme urlparse.netloc urlparse.path
      urlparse.query urlparse.fragment].
    unfold j. destruct (rooted_join_v1 (urlparse.path r)) as [x ->].
    rewrite !sapp_assoc.
    rewrite <- (sapp_assoc _ "//"), <- (sapp_assoc _ (urlparse.netloc r)),
      <- (sapp_assoc _ x).
    apply search_version_v1. }
  set (api := urlparse.urlunsplit (replace_path r j)) in *.
  rewrite (validate_url_cases _ _ P), S.
  rewrite (validate_url_cases _ _ E) in V.
  unfold replace_path. cbn [urlparse.scheme urlparse.netloc].
  destruct (_ || negb _); [discriminate|].
  destruct (falsy _); [discriminate|reflexivity].
Qed.

Lemma api_url_not_valid_witness :
  validate_url "https://x.com/v1"
  = Raise (MisconfiguredError (version_message "https://x.com/v1")).
Proof.
  apply (api_url_not_valid "a@b.com" "t" "https://x.com/" "default" initial
           (mkState {[ default_name := example_conn ]} 1) example_conn).
  vm_compute. reflexivity.
Defined.

(** X12: on an instance that [connect] returned, [build_absolute_url]
    never raises.  The URL it returns parses to the scheme, netloc, query
    and fragment of the URL given to [connect]; its decoded path segments
    are those of that URL, then [v1], then the segments of the path given,
    unless the path begins with a slash: then they are the segments of the
    path alone, and the version is gone. *)
Theorem build_absolute_url_registered (email token url name p : string)
    (st st' : State) (conn : Connection) :
  connect email token url name st = (Ok conn, st') ->
  exists r u r',
    urlparse.urlsplit url = Ok r
    /\ build_absolute_url conn p = Ok u
    /\ urlparse.urlsplit u = Ok r'
    /\ urlparse.scheme r' = urlparse.scheme r
    /\ urlparse.netloc r' = urlparse.netloc r
    /\ urlparse.query r' = urlparse.query r
    /\ urlparse.fragment r' = urlparse.fragment r
    /\ decoded_segments (urlparse.path r')
       = (if text.startswith "/" p then []
          else decoded_segments (urlparse.path r) ++ ["v1"%string])
         ++ segments p.
Proof.
  intros (_ & _ & (r & E & Hn & ->) & _)%connect_success.
  unfold build_absolute_url, url_join, urlobject.URLObject, urlobject.URLPath.
  cbn [api_url].
  set (j := posixpath.join_step (urlparse.path r) "v1").
  pose proof (urlsplit_components _ _ E) as C.
  assert (urlparse.urlsplit (urlparse.urlunsplit (replace_path r j))
          = Ok (replace_path r (rooted j))) as P.
  { apply (urlsplit_urlunsplit (replace_path r j)); [|exact Hn].
    apply components_ok_replace; [exact C|].
    apply join_step_chars; [reflexivity|by apply components_ok_path|reflexivity]. }
  destruct (add_path_parsed _ p _ P Hn)
    as (u & r' & A & P' & H1 & H2 & H3 & H4 & _ & H6).
  exists r, u, r'. split; [exact E|]. split; [exact A|]. split; [exact P'|].
  do 4 (split; [assumption|]). rewrite H6.
  unfold replace_path. cbn [urlparse.path].
  unfold decoded_segments at 1. rewrite segments_rooted. unfold j.
  rewrite (join_step_segments (urlparse.path r) "v1");
    [|discriminate|reflexivity].
  by rewrite List.map_app.
Qed.

Lemma build_absolute_url_registered_witness :
  exists u r',
    build_absolute_url example_conn "/widgets" = Ok u
    /\ urlparse.urlsplit u = Ok r'
    /\ decoded_segments (urlparse.path r') = ["widgets"%string].
Proof.
  destruct (build_absolute_url_registered "a@b.com" "t" "https://x.com/"
              "default" "/widgets" initial
              (mkState {[ default_name := example_conn ]} 1) example_conn)
    as (r & u & r' & _ & B & P & _ & _ & _ & _ & S).
  - vm_compute. reflexivity.
  - exists u, r'. split; [exact B|]. split; [exact P|]. exact S.
Defined.

(** X13: [url_join] looks at the base only when there is a segment to
    add: without segments it returns any text, and with one it raises
    exactly when [urlsplit] refuses the base, with the exception of
    [urlsplit]. *)
Theorem url_join_raises (base p : string) (rest : list string) :
  url_join base [] = Ok base
  /\ forall e,
       url_join base (p :: rest) = Raise e <-> urlparse.urlsplit base = Raise e.
Proof.
  split; [reflexivity|]. intros e.
  unfold url_join, urlobject.URLObject, urlobject.URLPath.
  destruct (urlparse.urlsplit base) as [r|e'] eqn:E.
  - rewrite (add_path_spec _ _ _ E). split; discriminate.
  - unfold urlobject.add_path, urlobject.path. rewrite E. cbn.
    split; intros [= ->]; reflexivity.
Qed.

Lemma url_join_raises_witness :
  url_join "http://[::1/api" [] = Ok "http://[::1/api"%string
  /\ url_join "http://[::1/api" ["widgets"%string]
     = Raise (ValueError "Invalid IPv6 URL").
Proof.
  destruct (url_join_raises "http://[::1/api" "widgets" [])
    as [H0 H]. split; [exact H0|].
  apply H. vm_compute. reflexivity.
Defined.

(** X14: the constructor does not validate: it raises exactly when
    [urlsplit] refuses the URL, and on every URL that parses, also one
    that [validate_url] rejects, it returns an instance with that URL as
    [base_url] and the email given. *)
Theorem init_does_not_validate (n : nat) (url email token version : string) :
  (forall e,
     __init__ n url email token version = Raise e
     <-> urlparse.urlsplit url = Raise e)
  /\ (forall r,
        urlparse.urlsplit url = Ok r ->
        exists conn,
          __init__ n url email token version = Ok conn
          /\ oid conn = n
          /\ base_url conn = url
          /\ connection.email conn = email).
Proof.
  destruct (urlparse.urlsplit url) as [r|e'] eqn:E.
  - rewrite (init_of_urlsplit _ _ _ _ _ _ E). split.
    + intros e. split; discriminate.
    + intros r' _. eexists. by repeat split.
  - split.
    + intros e. unfold __init__, urlobject.add_path_segment, urlobject.path,
        urlobject.URLObject. rewrite E. cbn.
      split; intros [= ->]; reflexivity.
    + discriminate.
Qed.

Lemma init_does_not_validate_witness :
  validate_url "api.example.com"
  = Raise (MisconfiguredError (scheme_message "api.example.com"))
  /\ exists conn,
       __init__ 0 "api.example.com" "a@b.com" "t" "v1" = Ok conn
       /\ oid conn = 0
       /\ base_url conn = "api.example.com"%string
       /\ connection.email conn = "a@b.com"%string.
Proof.
  split; [vm_compute; reflexivity|].
  destruct (init_does_not_validate 0 "api.example.com" "a@b.com" "t" "v1")
    as [_ H].
  apply (H (urlparse.mkSplitResult EmptyString EmptyString "api.example.com"
              EmptyString EmptyString)).
  vm_compute. reflexivity.
Defined.

(** * From [connect] to the request *)

(** X15: a call through a verb attribute of an instance that [connect]
    returned is one call of that verb of the session, with the URL and the
    arguments as given and the answer returned as it comes, and that
    session holds the application name and the token and email given to
    [connect]. *)
Theorem request_carries_credentials (PyVal Response : Type)
    (email token url name verb target : string) (st st' : State)
    (conn : Connection) (args : list PyVal) (kwargs : list (string * PyVal)) :
  connect email token url name st = (Ok conn, st') ->
  In verb methods ->
  exists f s,
    __getattr__ conn verb = Ok f
    /\ call (Response := Response) f target args kwargs
       = SessionCall s verb target args kwargs Return
    /\ requests.header_get "X-PW-Application" (requests.headers s)
       = Some "developer_api"%string
    /\ requests.header_get "X-PW-AccessToken" (requests.headers s) = Some token
    /\ requests.header_get "X-PW-UserEmail" (requests.headers s) = Some email.
Proof.
  intros (_ & _ & (r & E & Hn & ->) & _)%connect_success Hin.
  eexists (partial_http_method _ verb), (_get_session email token).
  split.
  - unfold __getattr__.
    assert (urlparse.in_list verb methods = true) as ->; [|reflexivity].
    apply existsb_exists. exists verb. split; [exact Hin|apply String.eqb_refl].
  - split; [reflexivity|]. split; [vm_compute; reflexivity|].
    apply get_session_credentials.
Qed.

Lemma request_carries_credentials_witness :
  exists f s,
    __getattr__ example_conn "post" = Ok f
    /\ call (PyVal := string) (Response := string) f
         "https://x.com/v1/widgets" ["{}"%string] []
       = SessionCall s "post" "https://x.com/v1/widgets" ["{}"%string] [] Return
    /\ requests.header_get "X-PW-AccessToken" (requests.headers s)
       = Some "t"%string.
Proof.
  destruct (request_carries_credentials string string "a@b.com" "t"
              "https://x.com/" "default" "post" "https://x.com/v1/widgets"
              initial (mkState {[ default_name := example_conn ]} 1)
              example_conn ["{}"%string] [])
    as (f & s & H1 & H2 & _ & H3 & _).
  - vm_compute. reflexivity.
  - cbn. auto.
  - exists f, s. split; [exact H1|]. split; [exact H2|exact H3].
Defined.
